(** * AZ::JsonSerializationUtils: saving and loading reflected objects as JSON

    A shallow embedding of
    [dev/Code/Framework/AtomCore/AtomCore/Serialization/Json/Utils.cpp].

    The functions of that translation unit are embedded one by one, under
    their own names.  What they call but do not define (the reflection
    registry, the object mapper [JsonSerialization::Store]/[Load], the
    rapidjson reader and writer, the stream classes) is taken as an
    interface: a record of operations the functions are parameterised by.

    Conventions of the embedding:
    - a text is the [string] of its bytes, the NUL character among them;
      what is read through a [const char*] ([azstricmp], a [%s] of a
      format, [StringRef], [Crc32]) is the text before the first NUL,
      [c_str]; a JSON string may hold a NUL, and its [GetString()] is read
      that way;
    - a [string_view] whose [data()] is read is a [string_view] record:
      the characters of the view, and those that follow them in the buffer it
      points into; one that is only compared or appended is the [string] of
      its characters;
    - an object behind a [void*] is a value of an abstract type [Obj], and
      a function that writes through the pointer returns the new value;
    - where the source dereferences a null pointer or an end iterator, or
      breaks a precondition that rapidjson asserts, it has no defined
      result, and the embedding gives the call none: it is a [Crash], of
      which no more is known than that the source defines no return;
    - a stream is a value that every operation returns updated;
    - a callback of the caller is a function of what it is given. *)

From Stdlib Require Import ZArith NArith String Ascii List Lia.
From Stdlib Require Import DecimalString DecimalZ DecimalPos.
From stdpp Require Import base option gmap strings.

Set Warnings "-register-all".

Local Open Scope string_scope.
Local Open Scope N_scope.

(** ** Results *)

Module AZ.

(** [AZ::Outcome<V, E>]: a value on success, an error on failure. *)
Inductive Outcome (V E : Type) : Type :=
| Success (v : V)
| Failure (e : E).
Arguments Success {V E} v.
Arguments Failure {V E} e.

Definition IsSuccess {V E} (o : Outcome V E) : bool :=
  match o with Success _ => true | Failure _ => false end.

(** [AZ::Uuid], a 128-bit identifier. *)
Definition Uuid : Type := N.

(** [AZ::Crc32], the 32-bit hash the registry indexes class names by. *)
Definition Crc32 : Type := N.

End AZ.

(** Where the source has no defined result.  A build may stop there or go
    on with whatever memory holds; the embedding follows the call no
    further. *)
Inductive Fault : Type :=
| NullDereference          (* [p->m] with [p == nullptr] *)
| EndIteratorDereference   (* [it->value] with [it == MemberEnd()] *)
| AssertIsObject           (* RAPIDJSON_ASSERT(IsObject()) in [FindMember] *)
| AssertIsString.          (* RAPIDJSON_ASSERT(IsString()) in [GetString] *)

Inductive Exec (A : Type) : Type :=
| Done (a : A)
| Crash (f : Fault).
Arguments Done {A} a.
Arguments Crash {A} f.

#[global] Instance Exec_ret : MRet Exec := fun A a => Done a.
#[global] Instance Exec_bind : MBind Exec := fun A B k m =>
  match m with
  | Done a => k a
  | Crash f => Crash f
  end.

(** ** C strings *)

(** What a [const char*] to the first byte of a text denotes: the
    characters before the first NUL. *)
Fixpoint c_str (s : string) : string :=
  match s with
  | EmptyString => EmptyString
  | String c rest =>
      if Ascii.eqb c zero then EmptyString else String c (c_str rest)
  end.

(** An [AZStd::string_view] into a buffer: the characters it spans, and the
    characters of the buffer past its end, the terminator of the buffer
    among them when it has one. *)
Record string_view : Type := {
  view : string;
  past : string
}.

(** [data()] read as a [const char*]: the view is not terminated, and the
    reading goes on into what follows it. *)
Definition data (v : string_view) : string := c_str (view v ++ past v).

(** The view of a whole terminated buffer. *)
Definition whole (s : string) : string_view := {| view := s; past := "" |}.

(** [tolower] of the C locale. *)
Definition tolower (c : ascii) : ascii :=
  let n := N_of_ascii c in
  if (65 <=? n) && (n <=? 90) then ascii_of_N (n + 32) else c.

(** Modelled from the spec: the comparison behind [azstricmp], of two texts
    without a NUL.  The result is the sign of the comparison of the first
    two characters that differ once lowered, a text that ends first being
    the smaller, and 0 when there is none. *)
Fixpoint compare_ignoring_case (a b : string) : Z :=
  match a, b with
  | EmptyString, EmptyString => 0%Z
  | EmptyString, String _ _ => (-1)%Z
  | String _ _, EmptyString => 1%Z
  | String c a', String d b' =>
      match N.compare (N_of_ascii (tolower c)) (N_of_ascii (tolower d)) with
      | Eq => compare_ignoring_case a' b'
      | Lt => (-1)%Z
      | Gt => 1%Z
      end
  end.

(** Modelled from the spec: [azstricmp] is a macro of AzCore, defined outside
    this translation unit, for the platform's [stricmp]/[strcasecmp]; the
    spec calls its use a case-insensitive comparison.  Its arguments are
    [const char*]: each is read up to its first NUL. *)
Definition azstricmp (a b : string) : Z :=
  compare_ignoring_case (c_str a) (c_str b).

(** [s.size()] as a [size_t]. *)
Definition strlen (s : string) : N := N.of_nat (String.length s).

(** ** JSON documents (rapidjson) *)

Module rapidjson.

(** [rapidjson::Value]; an object keeps its members in insertion order and
    may hold a name twice.  A double is kept as its 64 bits. *)
Inductive Value : Type :=
| JNull
| JBool (b : bool)
| JInt (z : Z)
| JDouble (bits : N)
| JString (s : string)
| JArray (items : list Value)
| JObject (members : list (string * Value)).

Definition Document : Type := Value.

Definition IsString (v : Value) : bool :=
  match v with JString _ => true | _ => false end.

Definition IsObject (v : Value) : bool :=
  match v with JObject _ => true | _ => false end.

(** [v.GetString()]: a [const Ch*] to the bytes of the string, which
    carries no length; what it denotes ends at the first NUL. *)
Definition GetString (v : Value) : Exec string :=
  match v with
  | JString s => Done (c_str s)
  | _ => Crash AssertIsString
  end.

(** The linear search of [FindMember]: the first member of that name. *)
Fixpoint find_member (members : list (string * Value)) (name : string)
  : option Value :=
  match members with
  | nil => None
  | (k, v) :: rest => if String.eqb name k then Some v else find_member rest name
  end.

(** [v.FindMember(name)]; [None] is [MemberEnd()]. *)
Definition FindMember (v : Value) (name : string) : Exec (option Value) :=
  match v with
  | JObject members => Done (find_member members name)
  | _ => Crash AssertIsObject
  end.

(** [it->value] *)
Definition value (it : option Value) : Exec Value :=
  match it with
  | Some v => Done v
  | None => Crash EndIteratorDereference
  end.

(** What [Document::Parse] leaves behind: a document, or the offset and
    the code of the parse error. *)
Inductive ParseResult : Type :=
| Parsed (doc : Document)
| ParseError (offset : N) (code : N).

End rapidjson.
Import rapidjson.

(** ** Result codes of the object mapper *)

Module JsonSerializationResult.

(** Modelled from the spec: the enumerations are declared in AzCore's
    JsonSerializationResult.h, outside this translation unit.  The spec
    names these values and leaves both enumerations open. *)
Inductive Processing : Type :=
| Completed
| Halted
| OtherProcessing (code : N).

Inductive Outcomes : Type :=
| Success
| DefaultsUsed
| PartialDefaults
| Skipped
| Unsupported
| OtherOutcome (code : N).

Record ResultCode : Type := {
  GetTask : N;
  GetProcessing : Processing;
  GetOutcome : Outcomes
}.

Definition Processing_eqb (a b : Processing) : bool :=
  match a, b with
  | Completed, Completed => true
  | Halted, Halted => true
  | OtherProcessing m, OtherProcessing n => N.eqb m n
  | _, _ => false
  end.

Definition Outcomes_eqb (a b : Outcomes) : bool :=
  match a, b with
  | Success, Success => true
  | DefaultsUsed, DefaultsUsed => true
  | PartialDefaults, PartialDefaults => true
  | Skipped, Skipped => true
  | Unsupported, Unsupported => true
  | OtherOutcome m, OtherOutcome n => N.eqb m n
  | _, _ => false
  end.

End JsonSerializationResult.
Import JsonSerializationResult.

(** ** The tags of the envelope *)

Definition FileTypeTag : string := "Type".
Definition FileType : string := "JsonSerialization".
Definition VersionTag : string := "Version".
Definition ClassNameTag : string := "ClassName".
Definition ClassIdTag : string := "ClassId".
Definition ClassDataTag : string := "ClassData".

Definition MaxFileSize : N := 1024 * 1024.

(** ** Header validation *)

(** Helper function to validate the JSON is structured with the standard
    header for a generic class. *)
Definition ValidateJsonClassHeader (jsonDocument : Document)
  : Exec (AZ.Outcome unit string) :=
  typeItr ← FindMember jsonDocument FileTypeTag;
  typeBad ←
    match typeItr with
    | None => Done true
    | Some v =>
        if negb (IsString v) then Done true
        else s ← GetString v; Done (negb (Z.eqb (azstricmp s FileType) 0))
    end;
  if typeBad : bool then Done (AZ.Failure "Not a valid JsonSerialization file")
  else
    nameItr ← FindMember jsonDocument ClassNameTag;
    if match nameItr with
       | None => true
       | Some v => negb (IsString v)
       end
    then Done (AZ.Failure "File should contain ClassName")
    else
      dataItr ← FindMember jsonDocument ClassDataTag;
      (* data can be empty but it should be an object *)
      if match dataItr with
         | None => false
         | Some v => negb (IsObject v)
         end
      then Done (AZ.Failure "ClassData should be an object")
      else Done (AZ.Success tt).

(** ** The collaborators *)

(** [SerializeContext::ClassData], of which only the name is read here. *)
Record ClassData : Type := { m_name : string }.

(** [AZ::SerializeContext], the reflection registry: lookup of a class by
    id, lookup of the ids registered under a hashed name, and construction
    of a default instance in an [AZStd::any]. *)
Record SerializeContext (Obj : Type) : Type := {
  FindClassData : AZ.Uuid -> option ClassData;
  FindClassId : AZ.Crc32 -> list AZ.Uuid;
  CreateAny : AZ.Uuid -> Obj
}.
Arguments FindClassData {Obj} _ _.
Arguments FindClassId {Obj} _ _.
Arguments CreateAny {Obj} _ _.

(** [JsonSerializationResult::JsonIssueCallback] as a caller supplies it:
    it sees the message, the result and the path, and returns the result
    the mapper goes on with. *)
Definition JsonIssueCallback : Type :=
  string -> ResultCode -> string_view -> ResultCode.

Module JsonSerializerSettings.
Record t (Obj : Type) : Type := {
  m_serializeContext : option (SerializeContext Obj);
  m_reporting : option JsonIssueCallback
}.
Arguments m_serializeContext {Obj} _.
Arguments m_reporting {Obj} _.
Definition default (Obj : Type) : t Obj :=
  {| m_serializeContext := None; m_reporting := None |}.
End JsonSerializerSettings.

Module JsonDeserializerSettings.
Record t (Obj : Type) : Type := {
  m_serializeContext : option (SerializeContext Obj);
  m_reporting : option JsonIssueCallback
}.
Arguments m_serializeContext {Obj} _.
Arguments m_reporting {Obj} _.
Definition default (Obj : Type) : t Obj :=
  {| m_serializeContext := None; m_reporting := None |}.
End JsonDeserializerSettings.

(** The object mapper at work on a load.  Its code is outside this
    translation unit; what matters here is its conversation with the
    reporting callback of the settings: it reports an issue, gets a result
    code back and goes on from there, any number of times, before it
    returns. *)
Inductive Mapper (A : Type) : Type :=
| Return (a : A)
| Report (message : string) (result : ResultCode) (target : string_view)
         (k : ResultCode -> Mapper A).
Arguments Return {A} a.
Arguments Report {A} message result target k.

(** The callback that [PrepareDeserializerSettings] installs writes to the
    string it captured by reference: a callback over that buffer. *)
Definition BufferedCallback : Type :=
  string -> ResultCode -> string_view -> string -> ResultCode * string.

(** Running the mapper against an installed callback, from a given content
    of the buffer. *)
Fixpoint run {A : Type} (callback : BufferedCallback) (m : Mapper A)
  (buffer : string) : A * string :=
  match m with
  | Return a => (a, buffer)
  | Report message result target k =>
      let '(result', buffer') := callback message result target buffer in
      run callback (k result') buffer'
  end.

(** The issues a run of the mapper reports, in order, as the callback
    receives them. *)
Fixpoint reports {A : Type} (callback : BufferedCallback) (m : Mapper A)
  (buffer : string) : list (string * ResultCode * string_view) :=
  match m with
  | Return _ => nil
  | Report message result target k =>
      let '(result', buffer') := callback message result target buffer in
      (message, result, target) :: reports callback (k result') buffer'
  end.

(** Everything else the functions call: the application bus, the object
    mapper, rapidjson's reader and writer, and three formatting helpers. *)
Class Engine (Obj : Type) : Type := {
  (* ComponentApplicationBus::Events::GetSerializeContext; [None] when no
     handler answers. *)
  GetSerializeContext : option (SerializeContext Obj);
  (* AZ::Crc32(const char* ), of the text the pointer denotes *)
  Crc32_of : string -> AZ.Crc32;
  (* Uuid::ToString<AZStd::string>(), as a [%s] prints its [data()] *)
  Uuid_ToString : AZ.Uuid -> string;
  (* ResultCode::ToString(path) *)
  ResultCode_ToString : ResultCode -> string -> string;
  (* JsonSerialization::Store(output, allocator, object, defaultObject,
     classId, settings): the result code and the value stored in output. *)
  JsonSerialization_Store :
    Obj -> option Obj -> AZ.Uuid -> JsonSerializerSettings.t Obj ->
    ResultCode * Value;
  (* JsonSerialization::Load(object, classId, root, settings): the result
     code and the object as the mapper leaves it. *)
  JsonSerialization_Load :
    Obj -> AZ.Uuid -> Value -> SerializeContext Obj ->
    Mapper (ResultCode * Obj);
  (* rapidjson::Document::Parse(text, length) *)
  Document_Parse : string -> ParseResult;
  (* rapidjson::GetParseError_En, as a [%s] prints it *)
  GetParseError_En : N -> string;
  (* jsonDocument.Accept(PrettyWriter): whether every handler accepted,
     and the characters put to the stream meanwhile. *)
  Document_Accept : Document -> bool * string
}.

(** ** Streams *)

Module IO.

(** [IO::GenericStream], the operations used here.  [Read n] returns the
    bytes it could read, at most [n]; their number is its result in C++. *)
Class GenericStream (S : Type) : Type := {
  CanWrite : S -> bool;
  GetLength : S -> N;
  Read : N -> S -> string * S;
  Write : string -> S -> S
}.

(** [IO::ByteContainerStream<AZStd::vector<char>>]: a buffer and a
    position in it; writing overwrites from the position on and extends
    the buffer as needed. *)
Record ByteContainerStream : Type := {
  m_buffer : string;
  m_pos : nat
}.

Definition ByteContainer_Read (n : N) (s : ByteContainerStream)
  : string * ByteContainerStream :=
  let data := String.substring (m_pos s) (N.to_nat n) (m_buffer s) in
  (data, {| m_buffer := m_buffer s;
            m_pos := (m_pos s + String.length data)%nat |}).

Definition ByteContainer_Write (data : string) (s : ByteContainerStream)
  : ByteContainerStream :=
  let before := String.substring 0 (m_pos s) (m_buffer s) in
  let stop := (m_pos s + String.length data)%nat in
  let after :=
    String.substring stop (String.length (m_buffer s) - stop) (m_buffer s) in
  {| m_buffer := before ++ data ++ after; m_pos := stop |}.

#[global] Instance ByteContainerStream_GenericStream
  : GenericStream ByteContainerStream := {
  CanWrite := fun _ => true;
  GetLength := fun s => strlen (m_buffer s);
  Read := ByteContainer_Read;
  Write := ByteContainer_Write
}.

(** [IO::FileIOStream] as [SaveObjectToFileByType] uses it.  The class is
    outside this translation unit, and so are the files it works on: [W] is
    the state of the files, whatever it is made of.  [OpenForWrite path] is
    [Open(path, ModeWrite | ModeCreatePath | ModeText)]: its result, and
    the files as the call leaves them.  [WriteFile path data] is
    [Write(size, data)] on the stream opened on [path], whose result the
    caller discards, followed by the closing of the stream as it goes out
    of scope. *)
Class FileIO (W : Type) : Type := {
  OpenForWrite : string -> W -> bool * W;
  WriteFile : string -> string -> W -> W
}.

End IO.
Import IO.

(** ** The functions of Utils.cpp *)

Section JsonSerializationUtils.

Context {Obj : Type} `{!Engine Obj} {S : Type} `{!GenericStream S}.

Definition SaveObjectToStreamByType (objectPtr : Obj) (classId : AZ.Uuid)
  (stream : S) (defaultObjectPtr : option Obj)
  (settings : option (JsonSerializerSettings.t Obj))
  : Exec (AZ.Outcome unit string * S) :=
  if negb (CanWrite stream)
  then Done (AZ.Failure "The GenericStream can't be written to", stream)
  else
    let saveSettings :=
      match settings with
      | Some given => given
      | None => JsonSerializerSettings.default Obj
      end in
    let found :=
      match JsonSerializerSettings.m_serializeContext saveSettings with
      | Some context => Some context
      | None => GetSerializeContext
      end in
    match found with
    | None => Done (AZ.Failure "Need SerializeContext for saving", stream)
    | Some serializeContext =>
        let saveSettings :=
          {| JsonSerializerSettings.m_serializeContext := Some serializeContext;
             JsonSerializerSettings.m_reporting :=
               JsonSerializerSettings.m_reporting saveSettings |} in
        let '(jsonResult, serializedObject) :=
          JsonSerialization_Store objectPtr defaultObjectPtr classId
            saveSettings in
        if negb (Processing_eqb (GetProcessing jsonResult) Completed)
        then Done (AZ.Failure (ResultCode_ToString jsonResult ""), stream)
        else
          classData ←
            match FindClassData serializeContext classId with
            | Some found => Done found
            | None => Crash NullDereference
            end;
          let jsonDocument :=
            JObject ((FileTypeTag, JString FileType)
                     :: (VersionTag, JInt 1)
                     :: (ClassNameTag, JString (c_str (m_name classData)))
                     :: (ClassDataTag, serializedObject) :: nil) in
          let '(jsonWriteResult, text) := Document_Accept jsonDocument in
          let stream := Write text stream in
          if negb jsonWriteResult
          then Done (AZ.Failure
                       ("Unable to write class " ++ Uuid_ToString classId
                        ++ " with json serialization format'"), stream)
          else Done (AZ.Success tt, stream)
    end.

(** Helper function to check whether the load outcome was success (for
    loading json serialization file). *)
Definition WasLoadSuccess (outcome : Outcomes) : bool :=
  Outcomes_eqb outcome Success
  || Outcomes_eqb outcome DefaultsUsed
  || Outcomes_eqb outcome PartialDefaults.

(** The lambda of [PrepareDeserializerSettings]; [deserializeError] is the
    string it captures by reference, [reporting] the callback of the
    caller's settings, captured by value. *)
Definition issueReportingCallback (reporting : option JsonIssueCallback)
  : BufferedCallback :=
  fun message result target deserializeError =>
    let deserializeError :=
      if negb (WasLoadSuccess (GetOutcome result))
      then
        (* This if is a hack around fault in the JSON serialization system *)
        if negb (String.eqb message
                   "No part of the string could be interpreted as a uuid.")
        then (deserializeError ++ message)
             ++ (" '" ++ data target ++ "' " ++ String "010" "")
        else deserializeError
      else deserializeError in
    let result :=
      match reporting with
      | Some callback => callback message result target
      | None => result
      end in
    (result, deserializeError).

(** The settings as [PrepareDeserializerSettings] returns them: a context
    that is there, and the callback it installed. *)
Record PreparedSettings : Type := {
  prepared_serializeContext : SerializeContext Obj;
  prepared_reporting : BufferedCallback
}.

Definition PrepareDeserializerSettings
  (inputSettings : option (JsonDeserializerSettings.t Obj))
  : AZ.Outcome PreparedSettings string :=
  let returnSettings :=
    match inputSettings with
    | Some given => given
    | None => JsonDeserializerSettings.default Obj
    end in
  let found :=
    match JsonDeserializerSettings.m_serializeContext returnSettings with
    | Some context => Some context
    | None => GetSerializeContext
    end in
  match found with
  | None => AZ.Failure "Need SerializeContext for loading"
  | Some context =>
      (* Report unused data field as error by default *)
      let reporting := JsonDeserializerSettings.m_reporting returnSettings in
      AZ.Success {| prepared_serializeContext := context;
                    prepared_reporting := issueReportingCallback reporting |}
  end.

(** The loop of [ParseJson] that turns the offset of the error into a line
    number: one more line for every newline before the offset.
    [searchOffset] is [None] for [npos]. *)
Fixpoint count_lines (fuel : nat) (jsonText : string)
  (searchOffset : option nat) (errorOffset : N) (lineNumber : N) : N :=
  match fuel, searchOffset with
  | Datatypes.S fuel', Some offset =>
      if N.of_nat offset <? errorOffset
      then count_lines fuel' jsonText
             (String.index (offset + 1) (String "010" "") jsonText)
             errorOffset (lineNumber + 1)
      else lineNumber
  | _, _ => lineNumber
  end.

Definition ParseJson (jsonText : string) : AZ.Outcome Document string :=
  match Document_Parse jsonText with
  | ParseError errorOffset code =>
      let lineNumber :=
        count_lines (Datatypes.S (String.length jsonText)) jsonText
          (String.index 0 (String "010" "") jsonText) errorOffset 1 in
      AZ.Failure ("JSON parse error at line "
                  ++ NilEmpty.string_of_uint (N.to_uint lineNumber)
                  ++ ": " ++ GetParseError_En code)
  | Parsed jsonDocument => AZ.Success jsonDocument
  end.

Definition LoadJson (stream : S) : AZ.Outcome Document string * S :=
  let length := GetLength stream in
  (* Protect from allocating too much memory. *)
  if MaxFileSize <? length
  then (AZ.Failure "Data is too large.", stream)
  else
    let '(memoryBuffer, stream) := Read length stream in
    let bytesRead := strlen memoryBuffer in
    if negb (bytesRead =? length)
    then (AZ.Failure "Cannot to read input stream.", stream)
    else (ParseJson (memoryBuffer ++ String zero ""), stream).

Definition LoadObjectFromStreamByType (objectToLoad : Obj)
  (classId : AZ.Uuid) (stream : S)
  (settings : option (JsonDeserializerSettings.t Obj))
  : Exec (AZ.Outcome unit string * Obj * S) :=
  let deserializeErrors := "" in
  match PrepareDeserializerSettings settings with
  | AZ.Failure error => Done (AZ.Failure error, objectToLoad, stream)
  | AZ.Success loadSettings =>
      let '(parseResult, stream) := LoadJson stream in
      match parseResult with
      | AZ.Failure error => Done (AZ.Failure error, objectToLoad, stream)
      | AZ.Success jsonDocument =>
          validateResult ← ValidateJsonClassHeader jsonDocument;
          match validateResult with
          | AZ.Failure error => Done (AZ.Failure error, objectToLoad, stream)
          | AZ.Success _ =>
              nameItr ← FindMember jsonDocument ClassNameTag;
              nameValue ← value nameItr;
              className ← GetString nameValue;
              (* validate class name *)
              classData ←
                match FindClassData (prepared_serializeContext loadSettings)
                        classId with
                | Some found => Done found
                | None => Crash NullDereference
                end;
              if negb (Z.eqb (azstricmp (m_name classData) className) 0)
              then Done (AZ.Failure
                           ("Try to load class " ++ c_str (m_name classData)
                            ++ " from class " ++ className ++ " data"),
                         objectToLoad, stream)
              else
                dataItr ← FindMember jsonDocument ClassDataTag;
                classDataValue ← value dataItr;
                let '(result, objectToLoad, deserializeErrors) :=
                  run (prepared_reporting loadSettings)
                    (JsonSerialization_Load objectToLoad classId
                       classDataValue (prepared_serializeContext loadSettings))
                    deserializeErrors in
                if negb (WasLoadSuccess (GetOutcome result))
                   || negb (String.eqb deserializeErrors "")
                then Done (AZ.Failure deserializeErrors, objectToLoad, stream)
                else Done (AZ.Success tt, objectToLoad, stream)
          end
      end
  end.

Definition LoadAnyObjectFromStream (stream : S)
  (settings : option (JsonDeserializerSettings.t Obj))
  : Exec (AZ.Outcome Obj string * S) :=
  let deserializeErrors := "" in
  match PrepareDeserializerSettings settings with
  | AZ.Failure error => Done (AZ.Failure error, stream)
  | AZ.Success loadSettings =>
      let '(parseResult, stream) := LoadJson stream in
      match parseResult with
      | AZ.Failure error => Done (AZ.Failure error, stream)
      | AZ.Success jsonDocument =>
          validateResult ← ValidateJsonClassHeader jsonDocument;
          (* the test is on parseResult, as in the source *)
          match parseResult with
          | AZ.Failure error => Done (AZ.Failure error, stream)
          | AZ.Success _ =>
              nameItr ← FindMember jsonDocument ClassNameTag;
              nameValue ← value nameItr;
              className ← GetString nameValue;
              let ids :=
                FindClassId (prepared_serializeContext loadSettings)
                  (Crc32_of className) in
              (* Load with first found class id *)
              match ids with
              | classId :: _ =>
                  let anyData :=
                    CreateAny (prepared_serializeContext loadSettings)
                      classId in
                  dataItr ← FindMember jsonDocument ClassDataTag;
                  objectData ← value dataItr;
                  let '(result, anyData, deserializeErrors) :=
                    run (prepared_reporting loadSettings)
                      (JsonSerialization_Load anyData classId objectData
                         (prepared_serializeContext loadSettings))
                      deserializeErrors in
                  if negb (WasLoadSuccess (GetOutcome result))
                     || negb (String.eqb deserializeErrors "")
                  then Done (AZ.Failure deserializeErrors, stream)
                  else Done (AZ.Success anyData, stream)
              | nil =>
                  Done (AZ.Failure
                          ("Can't find serialize context for class "
                           ++ className), stream)
              end
          end
      end
  end.

End JsonSerializationUtils.

Section SaveObjectToFile.

Context {Obj : Type} `{!Engine Obj} {W : Type} `{!FileIO W}.

(** The files are the part of the world this function changes: it takes
    their state and returns it.  The path goes to [Open] and to the message
    as [filePath.c_str()]. *)
Definition SaveObjectToFileByType (classPtr : Obj) (classId : AZ.Uuid)
  (filePath : string) (defaultClassPtr : option Obj)
  (settings : option (JsonSerializerSettings.t Obj)) (fs : W)
  : Exec (AZ.Outcome unit string * W) :=
  let byteStream := {| m_buffer := ""; m_pos := 0 |} in
  '(saveResult, byteStream) ←
    SaveObjectToStreamByType classPtr classId byteStream defaultClassPtr
      settings;
  if AZ.IsSuccess saveResult
  then
    let '(opened, fs) := OpenForWrite (c_str filePath) fs in
    if negb opened
    then Done (AZ.Failure ("Error opening file '" ++ c_str filePath
                           ++ "' for writing"), fs)
    else Done (saveResult, WriteFile (c_str filePath) (m_buffer byteStream) fs)
  else Done (saveResult, fs).

End SaveObjectToFile.

(** ** A small engine to run the functions on

    One reflected class, [Label], with a text and a size; an object mapper
    for it; a compact JSON writer, and a reader that recognises the text of
    the documents listed in [known_documents]. *)

Module Fixture.

Record Label : Type := { text : string; size : Z }.

Definition LabelId : AZ.Uuid := 7.
Definition UnknownId : AZ.Uuid := 8.

Definition hash (s : string) : AZ.Crc32 :=
  (fix go (s : string) (acc : N) : N :=
     match s with
     | EmptyString => acc
     | String c s' => go s' ((acc * 31 + N_of_ascii (tolower c)) mod 2 ^ 32)
     end) s 0.

Definition context : SerializeContext Label := {|
  FindClassData := fun id =>
    if id =? LabelId then Some {| m_name := "Label" |} else None;
  FindClassId := fun crc =>
    if crc =? hash "Label" then LabelId :: nil else nil;
  CreateAny := fun _ => {| text := ""; size := 0 |}
|}.

Definition code (p : Processing) (o : Outcomes) : ResultCode :=
  {| GetTask := 0; GetProcessing := p; GetOutcome := o |}.

(** Modelled from the spec: [JsonSerialization::Store] is outside this
    translation unit.  With no default object every field is written;
    with one, the fields equal to the default's are left out.  A class
    that is not registered halts the mapper. *)
Definition store (o : Label) (d : option Label) (classId : AZ.Uuid)
  (settings : JsonSerializerSettings.t Label) : ResultCode * Value :=
  if negb (classId =? LabelId) then (code Halted (OtherOutcome 12), JNull)
  else
    let keep_text :=
      match d with Some d => negb (String.eqb (text o) (text d)) | None => true end in
    let keep_size :=
      match d with Some d => negb (Z.eqb (size o) (size d)) | None => true end in
    (code Completed (if keep_text && keep_size then Success else PartialDefaults),
     JObject ((if keep_text then ("text", JString (text o)) :: nil else nil)
              ++ (if keep_size then ("size", JInt (size o)) :: nil else nil))%list).

(** Modelled from the spec: [JsonSerialization::Load] is outside this
    translation unit.  Each member of the payload sets its field; a field
    the payload does not name keeps its value.  A member ["id"] draws the
    report of the uuid reader that Utils.cpp filters, any other unknown
    member a report that it is skipped.  The path of a report is the name
    of the member, in a buffer of its own. *)
Fixpoint load_members (members : list (string * Value)) (o : Label)
  : Mapper (ResultCode * Label) :=
  match members with
  | nil => Return (code Completed Success, o)
  | (k, v) :: rest =>
      match k, v with
      | "text", JString s =>
          load_members rest {| text := s; size := size o |}
      | "size", JInt z =>
          load_members rest {| text := text o; size := z |}
      | "id", _ =>
          Report "No part of the string could be interpreted as a uuid."
            (code Completed Unsupported) (whole k)
            (fun _ => load_members rest o)
      | _, _ =>
          Report "Skipping unknown field" (code Completed Skipped) (whole k)
            (fun _ => load_members rest o)
      end
  end.

Definition load (o : Label) (classId : AZ.Uuid) (root : Value)
  (settings : SerializeContext Label) : Mapper (ResultCode * Label) :=
  match root with
  | JObject members => load_members members o
  | _ => Report "Expected an object" (code Halted Unsupported) (whole "")
           (fun r => Return (r, o))
  end.

(** A writer without white space or escapes. *)
Fixpoint render (v : Value) : string :=
  match v with
  | JNull => "null"
  | JBool true => "true"
  | JBool false => "false"
  | JInt z => NilEmpty.string_of_int (Z.to_int z)
  | JDouble bits => NilEmpty.string_of_uint (N.to_uint bits)
  | JString s => String "034" s ++ String "034" ""
  | JArray items =>
      "[" ++ (fix go (l : list Value) : string :=
                match l with
                | nil => ""
                | x :: nil => render x
                | x :: r => render x ++ "," ++ go r
                end) items ++ "]"
  | JObject members =>
      "{" ++ (fix go (l : list (string * Value)) : string :=
                match l with
                | nil => ""
                | (k, x) :: nil => String "034" k ++ String "034" ":" ++ render x
                | (k, x) :: r =>
                    String "034" k ++ String "034" ":" ++ render x ++ "," ++ go r
                end) members ++ "}"
  end.

Definition envelope (type : Value) (version : list (string * Value))
  (className : string) (data : list (string * Value)) : Document :=
  JObject ((("Type", type) :: version)
           ++ ("ClassName", JString className) :: data)%list.

Definition hello : Label := {| text := "hello"; size := 3 |}.
Definition blank : Label := {| text := ""; size := 0 |}.
Definition hello_payload : Value :=
  JObject (("text", JString "hello") :: ("size", JInt 3) :: nil).

Definition saved_hello : Document :=
  envelope (JString "JsonSerialization") (("Version", JInt 1) :: nil) "Label"
    (("ClassData", hello_payload) :: nil).
Definition unversioned_hello : Document :=
  envelope (JString "JsonSerialization") nil "Label"
    (("ClassData", hello_payload) :: nil).
Definition oddly_versioned_hello : Document :=
  envelope (JString "JsonSerialization") (("Version", JString "two") :: nil)
    "Label" (("ClassData", hello_payload) :: nil).
Definition mistyped_hello : Document :=
  envelope (JString "SomethingElse") (("Version", JInt 1) :: nil) "Label"
    (("ClassData", hello_payload) :: nil).
Definition foreign_hello : Document :=
  envelope (JString "JsonSerialization") (("Version", JInt 1) :: nil) "Foo"
    (("ClassData", hello_payload) :: nil).
Definition hello_with_id : Document :=
  envelope (JString "jsonserialization") (("Version", JInt 1) :: nil) "LABEL"
    (("ClassData",
      JObject (("id", JString "not-a-uuid") :: ("text", JString "hello")
               :: ("size", JInt 3) :: nil)) :: nil).
Definition hello_with_extra : Document :=
  envelope (JString "JsonSerialization") (("Version", JInt 1) :: nil) "Label"
    (("ClassData",
      JObject (("text", JString "hello") :: ("colour", JString "red")
               :: nil)) :: nil).
Definition headless : Document := JObject (("ClassData", JObject nil) :: nil).

(** Header strings with a NUL in them. *)
Definition junk : string := String zero "junk".
Definition trailed_type : Document :=
  envelope (JString ("JsonSerialization" ++ junk)) (("Version", JInt 1) :: nil)
    "Label" (("ClassData", hello_payload) :: nil).
Definition trailed_name : Document :=
  envelope (JString "JsonSerialization") (("Version", JInt 1) :: nil)
    ("Label" ++ junk) (("ClassData", hello_payload) :: nil).
Definition cut_name : Document :=
  envelope (JString "JsonSerialization") (("Version", JInt 1) :: nil)
    ("Foo" ++ junk) (("ClassData", hello_payload) :: nil).

Definition known_documents : list Document :=
  saved_hello :: unversioned_hello :: oddly_versioned_hello
  :: mistyped_hello :: foreign_hello :: hello_with_id :: hello_with_extra
  :: headless :: trailed_type :: trailed_name :: cut_name :: nil.

(** The reader: the known document that is written as the text given,
    which ends with the terminator [LoadJson] appends. *)
Definition parse (jsonText : string) : ParseResult :=
  match List.find
          (fun d => String.eqb (render d ++ String zero "") jsonText)
          known_documents with
  | Some d => Parsed d
  | None => ParseError 0 3
  end.

#[global] Instance engine : Engine Label := {|
  GetSerializeContext := Some context;
  Crc32_of := hash;
  Uuid_ToString := fun id => NilEmpty.string_of_uint (N.to_uint id);
  ResultCode_ToString := fun _ path => path ++ "The mapper halted";
  JsonSerialization_Store := store;
  JsonSerialization_Load := load;
  Document_Parse := parse;
  GetParseError_En := fun _ => "Invalid value.";
  Document_Accept := fun d => (true, render d)
|}.

(** A stream that takes its length from the file's size on record and
    its bytes from what can be read of it. *)
Record FileStream : Type := {
  file_size : N;
  file_bytes : string;
  file_pos : nat
}.

#[global] Instance FileStream_GenericStream : GenericStream FileStream := {|
  CanWrite := fun _ => false;
  GetLength := file_size;
  Read := fun n s =>
    let data := String.substring (file_pos s) (N.to_nat n) (file_bytes s) in
    (data, {| file_size := file_size s; file_bytes := file_bytes s;
              file_pos := (file_pos s + String.length data)%nat |});
  Write := fun _ s => s
|}.

(** A file holding the text of a document. *)
Definition file_of (d : Document) : FileStream :=
  {| file_size := strlen (render d); file_bytes := render d; file_pos := 0 |}.

(** A text of [n] characters. *)
Definition padding (n : N) : string := N.iter n (String "a") "".

(** Files kept by path, and the paths that cannot be opened for writing.
    Opening a file for writing creates it, or empties the one there. *)
Record Disk : Type := {
  m_files : gmap string string;
  m_unwritable : gset string
}.

#[global] Instance Disk_FileIO : FileIO Disk := {|
  OpenForWrite := fun path fs =>
    if bool_decide (path ∈ m_unwritable fs) then (false, fs)
    else (true, {| m_files := <[path := ""]> (m_files fs);
                   m_unwritable := m_unwritable fs |});
  WriteFile := fun path data fs =>
    {| m_files := <[path := data]> (m_files fs);
       m_unwritable := m_unwritable fs |}
|}.

End Fixture.


(** ** The specification's reading of the header and of the verdict *)

Definition lowercase (s : string) : string :=
  (fix go (s : string) : string :=
     match s with
     | EmptyString => EmptyString
     | String c s' => String (tolower c) (go s')
     end) s.

Definition equal_ignoring_case (a b : string) : bool :=
  String.eqb (lowercase a) (lowercase b).

(** Check 1: the type tag is present, is a string, and its text up to its
    first NUL equals the sentinel but for the case of its letters. *)
Definition spec_check_fileTypeTag (members : list (string * Value)) : bool :=
  match find_member members "Type" with
  | Some (JString s) => equal_ignoring_case (c_str s) "JsonSerialization"
  | _ => false
  end.

(** Check 2: the class name is present and is a string. *)
Definition spec_check_className (members : list (string * Value)) : bool :=
  match find_member members "ClassName" with
  | Some (JString _) => true
  | _ => false
  end.

(** Check 3: the class data, if present, is an object. *)
Definition spec_check_classData (members : list (string * Value)) : bool :=
  match find_member members "ClassData" with
  | None => true
  | Some (JObject _) => true
  | Some _ => false
  end.

(** The three checks in their order, each with the message of its failure. *)
Definition spec_header_checks
  : list ((list (string * Value) -> bool) * string) :=
  (spec_check_fileTypeTag, "Not a valid JsonSerialization file")
  :: (spec_check_className, "File should contain ClassName")
  :: (spec_check_classData, "ClassData should be an object")
  :: nil.

(** The message of the first check that fails; the checks after it are not
    looked at. *)
Fixpoint first_failure (checks : list ((list (string * Value) -> bool) * string))
  (members : list (string * Value)) : option string :=
  match checks with
  | nil => None
  | (check, message) :: rest =>
      if check members then first_failure rest members else Some message
  end.

Definition spec_validateHeader (members : list (string * Value))
  : AZ.Outcome unit string :=
  match first_failure spec_header_checks members with
  | None => AZ.Success tt
  | Some message => AZ.Failure message
  end.

(** The verdict on a load: success when the outcome is one of the success
    categories and there are no diagnostics; otherwise failure, with the
    diagnostics as the error. *)
Definition spec_verdict {V : Type} (loaded : V) (result : ResultCode)
  (diagnostics : string) : AZ.Outcome V string :=
  match GetOutcome result, diagnostics with
  | (Success | DefaultsUsed | PartialDefaults), EmptyString => AZ.Success loaded
  | _, _ => AZ.Failure diagnostics
  end.

(** A document's members but for those named Version. *)
Definition without_version (members : list (string * Value))
  : list (string * Value) :=
  List.filter (fun member => negb (String.eqb (fst member) VersionTag)) members.

(** What a load returns, but for the stream. *)
Definition forget_stream {A S : Type} (r : Exec (A * S)) : Exec A :=
  match r with
  | Done (a, _) => Done a
  | Crash f => Crash f
  end.

(** The message the reporting callback leaves out of the diagnostics. *)
Definition uuid_message : string :=
  "No part of the string could be interpreted as a uuid.".

(** The envelope a save builds around a payload. *)
Definition envelope_of (className : string) (payload : Value) : Document :=
  JObject ((FileTypeTag, JString FileType)
           :: (VersionTag, JInt 1)
           :: (ClassNameTag, JString className)
           :: (ClassDataTag, payload) :: nil).

(** The context a save works with: the one of the settings given, or else
    the one the application answers with. *)
Definition context_for_saving {Obj : Type} `{!Engine Obj}
  (settings : option (JsonSerializerSettings.t Obj))
  : option (SerializeContext Obj) :=
  match settings with
  | Some {| JsonSerializerSettings.m_serializeContext := Some context |} =>
      Some context
  | _ => GetSerializeContext
  end.

(** The settings a save hands to the object mapper, once it has its
    context. *)
Definition settings_for_store {Obj : Type}
  (settings : option (JsonSerializerSettings.t Obj))
  (context : SerializeContext Obj) : JsonSerializerSettings.t Obj :=
  {| JsonSerializerSettings.m_serializeContext := Some context;
     JsonSerializerSettings.m_reporting :=
       match settings with
       | Some given => JsonSerializerSettings.m_reporting given
       | None => None
       end |}.

(** A byte stream before anything is written to it, and a byte stream set
    back to its start. *)
Definition fresh : ByteContainerStream := {| m_buffer := ""; m_pos := 0 |}.

Definition rewound (s : ByteContainerStream) : ByteContainerStream :=
  {| m_buffer := m_buffer s; m_pos := 0 |}.

(** The categories of outcome with which a load succeeded. *)
Definition success_category (outcome : Outcomes) : Prop :=
  outcome = Success \/ outcome = DefaultsUsed \/ outcome = PartialDefaults.

(** An issue that leaves the diagnostics as they are: one whose outcome is
    a success category, or whose message is the filtered one. *)
Definition quiet (report : string * ResultCode * string_view) : Prop :=
  success_category (GetOutcome (snd (fst report)))
  \/ fst (fst report) = uuid_message.

(** ** The reporter of common warnings *)

Section CommonWarnings.

Context {Obj : Type} `{!Engine Obj}.

(** Reporting call back that can be used in JsonSerializerSettings to
    report AZ_Warning when fields are skipped.  The warnings it raises, in
    the window "JSON", are returned beside the result.  [Outcomes_value]
    gives the enumerators of [Outcomes] their values, which the header
    of the mapper declares. *)
Definition ReportCommonWarnings (Outcomes_value : Outcomes -> N)
  (message : string) (result : ResultCode) (path : string_view)
  : ResultCode * list string :=
  if Outcomes_eqb (GetOutcome result) Skipped
  then
    match String.index 0 "/#" (view path) with
    | None =>
        (* Allow fields to start with '#' to indicate a comment *)
        (result,
         ("Skipped unrecognized field '" ++ c_str (view path) ++ "'") :: nil)
    | Some _ => (result, nil)
    end
  else
    if negb (Processing_eqb (GetProcessing result) Completed)
       || (Outcomes_value Unsupported <=? Outcomes_value (GetOutcome result))
    then (result,
          ("'" ++ c_str (view path) ++ "': "
           ++ c_str (ResultCode_ToString result "")) :: nil)
    else (result, nil).

End CommonWarnings.

(** ** What the properties speak of *)

(** The newlines of a text at the positions before an offset. *)
Fixpoint count_newlines (text : string) (offset : nat) : nat :=
  match text, offset with
  | String c rest, Datatypes.S before =>
      ((if Ascii.eqb c "010" then 1 else 0) + count_newlines rest before)%nat
  | _, _ => 0%nat
  end.

(** An issue the installed callback writes down, and the line it writes. *)
Definition loud (report : string * ResultCode * string_view) : bool :=
  match GetOutcome (snd (fst report)) with
  | Success | DefaultsUsed | PartialDefaults => false
  | _ => negb (String.eqb (fst (fst report)) uuid_message)
  end.

Definition diagnostic_line (report : string * ResultCode * string_view)
  : string :=
  fst (fst report) ++ " '" ++ data (snd report) ++ "' " ++ String "010" "".

(** The settings of a load with a context and a callback of the caller. *)
Definition load_settings {Obj : Type} (context : SerializeContext Obj)
  (reporting : option JsonIssueCallback) : JsonDeserializerSettings.t Obj :=
  {| JsonDeserializerSettings.m_serializeContext := Some context;
     JsonDeserializerSettings.m_reporting := reporting |}.

(** The context the settings of a load bring, if any. *)
Definition context_given {Obj : Type}
  (settings : option (JsonDeserializerSettings.t Obj))
  : option (SerializeContext Obj) :=
  match settings with
  | Some given => JsonDeserializerSettings.m_serializeContext given
  | None => None
  end.

(** ** A second engine: a class stored as a bare number

    One reflected class, [Count], an integer that the mapper stores as a
    JSON number.  The mapper completes for any type id; the writer gives up
    on a negative number after the opening brace; the application has not
    registered a context. *)

Module Probe.

Definition CountId : AZ.Uuid := 3.
Definition StrangerId : AZ.Uuid := 4.

Definition context : SerializeContext Z := {|
  FindClassData := fun id =>
    if id =? CountId then Some {| m_name := "Count" |} else None;
  FindClassId := fun crc =>
    if crc =? Fixture.hash "Count" then CountId :: nil else nil;
  CreateAny := fun _ => 0%Z
|}.

Definition store (o : Z) (d : option Z) (classId : AZ.Uuid)
  (settings : JsonSerializerSettings.t Z) : ResultCode * Value :=
  (Fixture.code Completed Success, JInt o).

Definition load (o : Z) (classId : AZ.Uuid) (root : Value)
  (settings : SerializeContext Z) : Mapper (ResultCode * Z) :=
  match root with
  | JInt z => Return (Fixture.code Completed Success, z)
  | _ => Report "Expected a number" (Fixture.code Completed Unsupported)
           (whole "") (fun r => Return (r, o))
  end.

Definition accept (d : Document) : bool * string :=
  match d with
  | JObject members =>
      match find_member members ClassDataTag with
      | Some (JInt z) =>
          if (z <? 0)%Z then (false, "{") else (true, Fixture.render d)
      | _ => (true, Fixture.render d)
      end
  | _ => (true, Fixture.render d)
  end.

Definition saved_five : Document := envelope_of "Count" (JInt 5).
Definition known_documents : list Document :=
  saved_five :: JArray nil :: nil.

Definition parse (jsonText : string) : ParseResult :=
  match List.find
          (fun d => String.eqb (Fixture.render d ++ String zero "") jsonText)
          known_documents with
  | Some d => Parsed d
  | None => ParseError (strlen jsonText) 3
  end.

Definition engine : Engine Z := {|
  GetSerializeContext := None;
  Crc32_of := Fixture.hash;
  Uuid_ToString := fun id => NilEmpty.string_of_uint (N.to_uint id);
  ResultCode_ToString := fun _ path => path ++ "The mapper halted";
  JsonSerialization_Store := store;
  JsonSerialization_Load := load;
  Document_Parse := parse;
  GetParseError_En := fun _ => "Invalid value.";
  Document_Accept := accept
|}.

Definition file_of (d : Document) : Fixture.FileStream :=
  Fixture.file_of d.

Definition save_settings : option (JsonSerializerSettings.t Z) :=
  Some {| JsonSerializerSettings.m_serializeContext := Some context;
          JsonSerializerSettings.m_reporting := None |}.

End Probe.

(** ** A third engine: classes with fields, and a reader for the writer

    Modelled from the spec: the object model, the object mapper and the JSON
    reader and writer are outside this translation unit.  Here a reflected
    object is its fields, each an integer or a text; the mapper stores an
    object as a JSON object with a member for each field, and loads one by
    the names of the fields; the writer puts a document out without white
    space, and the reader reads the objects, strings and integers of such a
    text. *)

Module Reflected.

(** Modelled from the spec: an instance is its fields in the order of
    their declaration, by name; a class has an id, a name and the instance
    that [constructDefault] makes of it, which gives the fields their names
    and kinds. *)
Inductive Field : Type :=
| Number (z : Z)
| Text (s : string).

Definition Instance : Type := list (string * Field).

Record Class : Type := {
  class_id : AZ.Uuid;
  class_name : string;
  class_default : Instance
}.

Definition Registry : Type := list Class.

Definition same_kind (a b : Field) : bool :=
  match a, b with
  | Number _, Number _ => true
  | Text _, Text _ => true
  | _, _ => false
  end.

Definition Field_eqb (a b : Field) : bool :=
  match a, b with
  | Number y, Number z => Z.eqb y z
  | Text s, Text t => String.eqb s t
  | _, _ => false
  end.

(** An instance of a class has the fields of the default instance: their
    names and their kinds, in their order. *)
Fixpoint instance_of (shape object : Instance) : bool :=
  match shape, object with
  | nil, nil => true
  | (n, f) :: shape', (m, g) :: object' =>
      String.eqb n m && same_kind f g && instance_of shape' object'
  | _, _ => false
  end.

(** No two of the names are the same. *)
Fixpoint distinct (names : list string) : bool :=
  match names with
  | nil => true
  | n :: rest => negb (List.existsb (String.eqb n) rest) && distinct rest
  end.

Definition find_class (registry : Registry) (id : AZ.Uuid) : option Class :=
  List.find (fun c => class_id c =? id) registry.

(** Modelled from the spec: the type model, with the lookup of a class by
    id, the lookup of the ids of a name by its hash, and the construction of
    a default instance. *)
Definition context (registry : Registry) : SerializeContext Instance := {|
  FindClassData := fun id =>
    match find_class registry id with
    | Some c => Some {| m_name := class_name c |}
    | None => None
    end;
  FindClassId := fun crc =>
    List.map class_id
      (List.filter (fun c => Fixture.hash (class_name c) =? crc) registry);
  CreateAny := fun id =>
    match find_class registry id with
    | Some c => class_default c
    | None => nil
    end
|}.

Definition encode_field (f : Field) : Value :=
  match f with
  | Number z => JInt z
  | Text s => JString s
  end.

Definition find_field (object : Instance) (name : string) : option Field :=
  match List.find (fun field => String.eqb name (fst field)) object with
  | Some field => Some (snd field)
  | None => None
  end.

(** Whether a field is written: always without a default object, and with
    one when its value is not the value the default object has for it. *)
Definition written (defaultObject : option Instance) (field : string * Field)
  : bool :=
  match defaultObject with
  | None => true
  | Some d =>
      match find_field d (fst field) with
      | Some g => negb (Field_eqb (snd field) g)
      | None => true
      end
  end.

Definition encode (object : Instance) : list (string * Value) :=
  List.map (fun field => (fst field, encode_field (snd field))) object.

(** Modelled from the spec: [JsonSerialization::Store].  With no default
    object every field is written; with one, the fields equal to the
    default's are left out.  A class that is not registered halts the
    mapper. *)
Definition store (object : Instance) (defaultObject : option Instance)
  (classId : AZ.Uuid) (settings : JsonSerializerSettings.t Instance)
  : ResultCode * Value :=
  match JsonSerializerSettings.m_serializeContext settings with
  | None => (Fixture.code Halted Unsupported, JNull)
  | Some registered =>
      match FindClassData registered classId with
      | None => (Fixture.code Halted Unsupported, JNull)
      | Some _ =>
          let kept := List.filter (written defaultObject) object in
          (Fixture.code Completed
             (if (List.length kept =? List.length object)%nat then Success
              else match kept with
                   | nil => DefaultsUsed
                   | _ => PartialDefaults
                   end),
           JObject (encode kept))
      end
  end.

(** The value a payload has for a field of the target: that of the first
    member of the field's name, when it is of the field's kind. *)
Definition matching (members : list (string * Value)) (field : string * Field)
  : option Field :=
  match find_member members (fst field), snd field with
  | Some (JInt z), Number _ => Some (Number z)
  | Some (JString s), Text _ => Some (Text s)
  | _, _ => None
  end.

Definition decode_field (members : list (string * Value))
  (field : string * Field) : string * Field :=
  match matching members field with
  | Some loaded => (fst field, loaded)
  | None => field
  end.

Definition decode (members : list (string * Value)) (target : Instance)
  : Instance :=
  List.map (decode_field members) target.

(** A field whose member is of another kind. *)
Definition mismatched (members : list (string * Value))
  (field : string * Field) : bool :=
  match find_member members (fst field), matching members field with
  | Some _, None => true
  | _, _ => false
  end.

(** A member that is no field of the target. *)
Definition unknown (target : Instance) (member : string * Value) : bool :=
  negb (List.existsb (fun field => String.eqb (fst member) (fst field)) target).

Definition issues (members : list (string * Value)) (target : Instance)
  : list (string * ResultCode * string_view) :=
  (List.map (fun field =>
          ("Unsupported type", Fixture.code Completed Unsupported,
           whole (fst field)))
     (List.filter (mismatched members) target)
   ++ List.map (fun member =>
            ("Skipping unknown field", Fixture.code Completed Skipped,
             whole (fst member)))
        (List.filter (unknown target) members))%list.

(** The reports of the issues, one after the other, before what follows. *)
Fixpoint report_all {A : Type}
  (reported : list (string * ResultCode * string_view)) (then_ : Mapper A)
  : Mapper A :=
  match reported with
  | nil => then_
  | (message, result, target) :: rest =>
      Report message result target (fun _ => report_all rest then_)
  end.

(** Modelled from the spec: [JsonSerialization::Load].  Each field of the
    target takes the value of the member of its name; a field the payload
    does not name keeps its value.  A member of another kind than its
    field, and a member that is no field, are reported.  The outcome tells
    whether every field, some field or no field was in the payload. *)
Definition load (target : Instance) (classId : AZ.Uuid) (root : Value)
  (registered : SerializeContext Instance)
  : Mapper (ResultCode * Instance) :=
  match root with
  | JObject members =>
      let found :=
        List.filter (fun field =>
                       match matching members field with
                       | Some _ => true
                       | None => false
                       end) target in
      report_all (issues members target)
        (Return (Fixture.code Completed
                   (if (List.length found =? List.length target)%nat
                    then Success
                    else match found with
                         | nil => DefaultsUsed
                         | _ => PartialDefaults
                         end),
                 decode members target))
  | _ => Report "Expected an object" (Fixture.code Halted Unsupported)
           (whole "") (fun r => Return (r, target))
  end.

(** *** The writer *)

Definition quote : ascii := "034".
Definition backslash : ascii := "092".

(** A quote and a backslash are written after a backslash. *)
Fixpoint escape (s : string) : string :=
  match s with
  | EmptyString => EmptyString
  | String c rest =>
      if Ascii.eqb c quote || Ascii.eqb c backslash
      then String backslash (String c (escape rest))
      else String c (escape rest)
  end.

Definition print_string (s : string) : string :=
  String quote (escape s ++ String quote "").

(** Modelled from the spec: the writer, the inverse of the reader, without
    the white space of the pretty printer. *)
Fixpoint print (v : Value) : string :=
  match v with
  | JNull => "null"
  | JBool true => "true"
  | JBool false => "false"
  | JInt z => NilEmpty.string_of_int (Z.to_int z)
  | JDouble bits => NilEmpty.string_of_uint (N.to_uint bits)
  | JString s => print_string s
  | JArray items =>
      "[" ++ (fix go (l : list Value) : string :=
                match l with
                | nil => ""
                | x :: nil => print x
                | x :: r => print x ++ "," ++ go r
                end) items ++ "]"
  | JObject members =>
      "{" ++ (fix go (l : list (string * Value)) : string :=
                match l with
                | nil => "}"
                | (k, x) :: nil => print_string k ++ ":" ++ print x ++ "}"
                | (k, x) :: r => print_string k ++ ":" ++ print x ++ "," ++ go r
                end) members
  end.

(** The members of an object as [print] writes them, the closing brace
    after them. *)
Fixpoint print_members (members : list (string * Value)) : string :=
  match members with
  | nil => "}"
  | (k, x) :: nil => print_string k ++ ":" ++ print x ++ "}"
  | (k, x) :: r => print_string k ++ ":" ++ print x ++ "," ++ print_members r
  end.

(** *** The reader *)

Fixpoint parse_string (s : string) : option (string * string) :=
  match s with
  | EmptyString => None
  | String c rest =>
      if Ascii.eqb c quote then Some (EmptyString, rest)
      else if Ascii.eqb c backslash
      then
        match rest with
        | String d rest' =>
            if Ascii.eqb d quote || Ascii.eqb d backslash
            then match parse_string rest' with
                 | Some (t, after) => Some (String d t, after)
                 | None => None
                 end
            else None
        | EmptyString => None
        end
      else match parse_string rest with
           | Some (t, after) => Some (String c t, after)
           | None => None
           end
  end.

Definition is_digit (c : ascii) : bool :=
  (48 <=? N_of_ascii c) && (N_of_ascii c <=? 57).

(** What follows a number in a text does not go on with a digit. *)
Definition ends_number (rest : string) : Prop :=
  match rest with
  | String c _ => is_digit c = false
  | EmptyString => True
  end.

(** The digits a text starts with, and what follows them. *)
Fixpoint digits (s : string) : string * string :=
  match s with
  | EmptyString => (EmptyString, EmptyString)
  | String c rest =>
      if is_digit c
      then let '(d, after) := digits rest in (String c d, after)
      else (EmptyString, s)
  end.

Definition parse_number (s : string) : option (Z * string) :=
  let '(sign, body) :=
    match s with
    | String c rest => if Ascii.eqb c "-" then ("-", rest) else ("", s)
    | EmptyString => ("", s)
    end in
  let '(d, after) := digits body in
  match d with
  | EmptyString => None
  | _ =>
      match NilEmpty.int_of_string (sign ++ d) with
      | Some i => Some (Z.of_int i, after)
      | None => None
      end
  end.

(** Modelled from the spec: the reader, for the objects, strings and
    integers of a text without white space.  The fuel bounds the depth. *)
Fixpoint parse_value (fuel : nat) (s : string) : option (Value * string) :=
  match fuel with
  | O => None
  | Datatypes.S fuel' =>
      match s with
      | EmptyString => None
      | String c rest =>
          if Ascii.eqb c quote
          then match parse_string rest with
               | Some (t, after) => Some (JString t, after)
               | None => None
               end
          else if Ascii.eqb c "{"
          then match rest with
               | String "}" after => Some (JObject nil, after)
               | _ =>
                   match parse_members fuel' rest with
                   | Some (members, after) => Some (JObject members, after)
                   | None => None
                   end
               end
          else match parse_number s with
               | Some (z, after) => Some (JInt z, after)
               | None => None
               end
      end
  end
with parse_members (fuel : nat) (s : string)
  : option (list (string * Value) * string) :=
  match fuel with
  | O => None
  | Datatypes.S fuel' =>
      match s with
      | String c rest =>
          if Ascii.eqb c quote
          then
            match parse_string rest with
            | Some (k, String ":" after) =>
                match parse_value fuel' after with
                | Some (v, String "," more) =>
                    match parse_members fuel' more with
                    | Some (members, after') => Some ((k, v) :: members, after')
                    | None => None
                    end
                | Some (v, String "}" after') => Some ((k, v) :: nil, after')
                | _ => None
                end
            | _ => None
            end
          else None
      | EmptyString => None
      end
  end.

(** [Document::Parse(text, length)] on the text [LoadJson] gives it, which
    ends with the terminator. *)
Definition parse (jsonText : string) : ParseResult :=
  match parse_value (String.length jsonText) jsonText with
  | Some (document, after) =>
      if String.eqb after (String zero "") then Parsed document
      else ParseError 0 3
  | None => ParseError 0 3
  end.

Definition engine (registry : Registry) : Engine Instance := {|
  GetSerializeContext := Some (context registry);
  Crc32_of := Fixture.hash;
  Uuid_ToString := fun id => NilEmpty.string_of_uint (N.to_uint id);
  ResultCode_ToString := fun _ path => path ++ "The mapper halted";
  JsonSerialization_Store := store;
  JsonSerialization_Load := load;
  Document_Parse := parse;
  GetParseError_En := fun _ => "Invalid value.";
  Document_Accept := fun d => (true, print d)
|}.

(** The text a save of an object of a class writes. *)
Definition saved_text (c : Class) (object : Instance) : string :=
  print (envelope_of (c_str (class_name c)) (JObject (encode object))).

(** What the reader can read back: integers, strings, and objects of
    them. *)
Fixpoint plain (v : Value) : bool :=
  match v with
  | JInt _ | JString _ => true
  | JObject members =>
      (fix go (l : list (string * Value)) : bool :=
         match l with
         | nil => true
         | (_, x) :: r => plain x && go r
         end) members
  | _ => false
  end.

Fixpoint plain_members (members : list (string * Value)) : bool :=
  match members with
  | nil => true
  | (_, x) :: r => plain x && plain_members r
  end.

(** A bound on the fuel the reader needs. *)
Fixpoint weight (v : Value) : nat :=
  match v with
  | JObject members =>
      Datatypes.S
        ((fix go (l : list (string * Value)) : nat :=
            match l with
            | nil => 0%nat
            | (_, x) :: r => Datatypes.S (weight x + go r)
            end) members)
  | _ => 1%nat
  end.

Fixpoint weight_members (members : list (string * Value)) : nat :=
  match members with
  | nil => 0%nat
  | (_, x) :: r => Datatypes.S (weight x + weight_members r)
  end.

(** A class to run the engine on, and an instance of it. *)
Definition point : Class :=
  {| class_id := 21; class_name := "Point";
     class_default :=
       ("x", Number 0) :: ("label", Text "") :: nil |}.

Definition marked : Instance :=
  ("x", Number (-12)) :: ("label", Text "a\b") :: nil.

End Reflected.

(** * Properties *)

(** ** Comparison of C strings *)

Lemma N_of_ascii_inj (c d : ascii) : N_of_ascii c = N_of_ascii d -> c = d.
Proof.
  intros H. rewrite <- (ascii_N_embedding c), <- (ascii_N_embedding d).
  now rewrite H.
Qed.

Lemma c_str_idem (s : string) : c_str (c_str s) = c_str s.
Proof.
  induction s as [|c s IH]; [reflexivity|].
  cbn [c_str]. destruct (Ascii.eqb c zero) eqn:E; [reflexivity|].
  cbn [c_str]. now rewrite E, IH.
Qed.

Lemma compare_ignoring_case_zero (a b : string) :
  compare_ignoring_case a b = 0%Z <-> lowercase a = lowercase b.
Proof.
  revert b. induction a as [|c a IH]; intros [|d b]; simpl; try easy.
  destruct (N.compare_spec (N_of_ascii (tolower c)) (N_of_ascii (tolower d)))
    as [E|E|E].
  - apply N_of_ascii_inj in E. rewrite E, IH. split; [congruence|].
    intros H. now injection H.
  - split; [discriminate|]. intros H. injection H as H _.
    rewrite H in E. lia.
  - split; [discriminate|]. intros H. injection H as H _.
    rewrite H in E. lia.
Qed.

Lemma azstricmp_zero (a b : string) :
  azstricmp a b = 0%Z <-> lowercase (c_str a) = lowercase (c_str b).
Proof. apply compare_ignoring_case_zero. Qed.

Lemma azstricmp_refl (a : string) : azstricmp a a = 0%Z.
Proof. now apply azstricmp_zero. Qed.

(** What follows the first NUL of an argument is not compared. *)
Lemma azstricmp_c_str (a b : string) :
  azstricmp (c_str a) (c_str b) = azstricmp a b.
Proof. unfold azstricmp. now rewrite !c_str_idem. Qed.

Lemma azstricmp_c_str_r (a b : string) :
  azstricmp a (c_str b) = azstricmp a b.
Proof. unfold azstricmp. now rewrite c_str_idem. Qed.

Lemma azstricmp_eqb (a b : string) :
  Z.eqb (azstricmp a b) 0 = equal_ignoring_case (c_str a) (c_str b).
Proof.
  unfold equal_ignoring_case.
  destruct (String.eqb_spec (lowercase (c_str a)) (lowercase (c_str b)))
    as [E|E].
  - apply Z.eqb_eq. now apply azstricmp_zero.
  - apply Z.eqb_neq. intros H. now apply azstricmp_zero in H.
Qed.

(** ** The header *)

(** On an object, the validation is a function of three lookups. *)
Lemma ValidateJsonClassHeader_object (members : list (string * Value)) :
  ValidateJsonClassHeader (JObject members) = Done (spec_validateHeader members).
Proof.
  unfold ValidateJsonClassHeader, spec_validateHeader, spec_header_checks,
    first_failure, spec_check_fileTypeTag, spec_check_className,
    spec_check_classData, FileTypeTag, ClassNameTag, ClassDataTag, FileType.
  cbn [FindMember mbind Exec_bind].
  destruct (find_member members "Type") as [[| | | |s| |]|]; cbn; try reflexivity.
  rewrite azstricmp_eqb, c_str_idem.
  change (c_str "JsonSerialization") with "JsonSerialization".
  destruct (equal_ignoring_case (c_str s) "JsonSerialization"); cbn;
    [|reflexivity].
  destruct (find_member members "ClassName") as [[| | | |n| |]|]; cbn;
    try reflexivity.
  destruct (find_member members "ClassData") as [[| | | | | |]|]; reflexivity.
Qed.

(** C2.  On a document that is an object, header validation runs three
    checks in a fixed order: the Type member is present, is a string and its
    text up to the first NUL equals "JsonSerialization" but for case, else
    "Not a valid JsonSerialization file"; the ClassName member is present
    and is a string, else "File should contain ClassName"; the ClassData
    member, if present, is an object, else "ClassData should be an object".
    The result is the message of the first check that fails, whatever the
    later checks would say, and success when none fails; so a document
    without Type fails with the first message, with or without a
    ClassName. *)
Theorem validate_header_first_failing_check (members : list (string * Value)) :
  ValidateJsonClassHeader (JObject members)
  = Done (match first_failure spec_header_checks members with
          | None => AZ.Success tt
          | Some message => AZ.Failure message
          end)
  /\ (find_member members FileTypeTag = None ->
      ValidateJsonClassHeader (JObject members)
      = Done (AZ.Failure "Not a valid JsonSerialization file")).
Proof.
  split.
  - apply ValidateJsonClassHeader_object.
  - intros H. rewrite ValidateJsonClassHeader_object.
    unfold spec_validateHeader, spec_header_checks, first_failure,
      spec_check_fileTypeTag.
    unfold FileTypeTag in H. now rewrite H.
Qed.

Lemma validate_header_first_failing_check_witness :
  find_member (("ClassData", JObject nil) :: nil) FileTypeTag = None
  /\ find_member (("ClassData", JObject nil) :: nil) ClassNameTag = None
  /\ ValidateJsonClassHeader Fixture.headless
     = Done (AZ.Failure "Not a valid JsonSerialization file").
Proof.
  split; [reflexivity|]. split; [reflexivity|].
  apply (validate_header_first_failing_check (("ClassData", JObject nil) :: nil)).
  reflexivity.
Defined.

(** C2 does not hold of the Type as the document has it, nor of every
    document.  A Type that is the sentinel followed by a NUL and more text
    is not the sentinel, with or without regard to case, and the validation
    accepts it; and for a document that is not an object the validation has
    no result, where the first check would have the first message. *)
Lemma type_with_text_after_a_NUL_is_accepted :
  find_member
    match Fixture.trailed_type with JObject members => members | _ => nil end
    FileTypeTag
  = Some (JString ("JsonSerialization" ++ Fixture.junk))
  /\ equal_ignoring_case ("JsonSerialization" ++ Fixture.junk)
       "JsonSerialization" = false
  /\ ValidateJsonClassHeader Fixture.trailed_type = Done (AZ.Success tt)
  /\ ValidateJsonClassHeader (JArray nil) = Crash AssertIsObject.
Proof. repeat split; vm_compute; reflexivity. Qed.

(** A document that is not an object breaks the precondition of
    [FindMember]. *)
Lemma ValidateJsonClassHeader_not_object (jsonDocument : Document) :
  IsObject jsonDocument = false ->
  ValidateJsonClassHeader jsonDocument = Crash AssertIsObject.
Proof. destruct jsonDocument; simpl; intros H; now try discriminate H. Qed.

(** ** The Version member *)

Lemma find_member_without_version (members : list (string * Value))
  (name : string) :
  name <> VersionTag ->
  find_member (without_version members) name = find_member members name.
Proof.
  intros Hname. induction members as [|[k v] rest IH]; [reflexivity|].
  simpl. destruct (String.eqb_spec k VersionTag) as [->|Hk]; simpl.
  - apply String.eqb_neq in Hname. now rewrite Hname.
  - now rewrite IH.
Qed.

Lemma find_member_same_without_version (ms1 ms2 : list (string * Value))
  (name : string) :
  without_version ms1 = without_version ms2 ->
  name <> VersionTag ->
  find_member ms1 name = find_member ms2 name.
Proof.
  intros H Hname.
  rewrite <- (find_member_without_version ms1), <- (find_member_without_version ms2)
    by assumption.
  now rewrite H.
Qed.

Lemma spec_validateHeader_same_without_version (ms1 ms2 : list (string * Value)) :
  without_version ms1 = without_version ms2 ->
  spec_validateHeader ms1 = spec_validateHeader ms2.
Proof.
  intros H.
  unfold spec_validateHeader, spec_header_checks, first_failure,
    spec_check_fileTypeTag, spec_check_className, spec_check_classData.
  rewrite (find_member_same_without_version ms1 ms2 "Type" H) by discriminate.
  rewrite (find_member_same_without_version ms1 ms2 "ClassName" H) by discriminate.
  rewrite (find_member_same_without_version ms1 ms2 "ClassData" H) by discriminate.
  reflexivity.
Qed.

Ltac same_lookups ms1 ms2 H :=
  unfold FileTypeTag, ClassNameTag, ClassDataTag;
  cbn [FindMember mbind Exec_bind];
  rewrite ?(find_member_same_without_version ms1 ms2 "ClassName" H) by discriminate;
  rewrite ?(find_member_same_without_version ms1 ms2 "ClassData" H) by discriminate.

(** C10.  Neither the validation of the header nor the load looks at the
    Version member.  Two documents that are the same but for their Version
    members get the same answer from the validation, and loading either,
    into an object of a given type or into an object of the type the header
    names, gives the same result and leaves the same object; so a document
    passes the validation with no Version, or with one of any type, exactly
    when it passes with a Version of 1. *)
Theorem version_member_is_never_inspected :
  (forall ms1 ms2 : list (string * Value),
      without_version ms1 = without_version ms2 ->
      ValidateJsonClassHeader (JObject ms1) = ValidateJsonClassHeader (JObject ms2))
  /\ (forall (Obj : Type) (E : Engine Obj) (S1 S2 : Type)
        (G1 : GenericStream S1) (G2 : GenericStream S2)
        (ms1 ms2 : list (string * Value)) (s1 s1' : S1) (s2 s2' : S2)
        (objectToLoad : Obj) (classId : AZ.Uuid)
        (settings : option (JsonDeserializerSettings.t Obj)),
         without_version ms1 = without_version ms2 ->
         LoadJson s1 = (AZ.Success (JObject ms1), s1') ->
         LoadJson s2 = (AZ.Success (JObject ms2), s2') ->
         forget_stream (LoadObjectFromStreamByType objectToLoad classId s1 settings)
         = forget_stream (LoadObjectFromStreamByType objectToLoad classId s2 settings)
         /\ forget_stream (LoadAnyObjectFromStream s1 settings)
            = forget_stream (LoadAnyObjectFromStream s2 settings)).
Proof.
  split.
  - intros ms1 ms2 H. rewrite !ValidateJsonClassHeader_object.
    now rewrite (spec_validateHeader_same_without_version ms1 ms2 H).
  - intros Obj E S1 S2 G1 G2 ms1 ms2 s1 s1' s2 s2' objectToLoad classId settings
      H H1 H2.
    unfold LoadObjectFromStreamByType, LoadAnyObjectFromStream.
    rewrite H1, H2, !ValidateJsonClassHeader_object.
    rewrite (spec_validateHeader_same_without_version ms1 ms2 H).
    same_lookups ms1 ms2 H.
    split.
    + destruct (PrepareDeserializerSettings settings); [|reflexivity].
      destruct (spec_validateHeader ms2); [|reflexivity].
      cbn [mbind Exec_bind].
      destruct (find_member ms2 "ClassName") as [nameValue|]; [|reflexivity].
      cbn [value mbind Exec_bind].
      destruct (GetString nameValue); [|reflexivity].
      cbn [mbind Exec_bind].
      destruct (FindClassData _ classId); [|reflexivity].
      cbn [mbind Exec_bind].
      destruct (negb _); [reflexivity|].
      destruct (find_member ms2 "ClassData"); [|reflexivity].
      cbn [value mbind Exec_bind].
      destruct (run _ _ _) as [[result loaded] errors].
      now destruct (_ || _)%bool.
    + destruct (PrepareDeserializerSettings settings); [|reflexivity].
      destruct (spec_validateHeader ms2); cbn [mbind Exec_bind].
      all: destruct (find_member ms2 "ClassName") as [nameValue|]; [|reflexivity].
      all: cbn [value mbind Exec_bind].
      all: destruct (GetString nameValue); [|reflexivity].
      all: cbn [mbind Exec_bind].
      all: destruct (FindClassId _ _); [reflexivity|].
      all: destruct (find_member ms2 "ClassData"); [|reflexivity].
      all: cbn [value mbind Exec_bind].
      all: destruct (run _ _ _) as [[result loaded] errors].
      all: now destruct (_ || _)%bool.
Qed.

Lemma version_member_is_never_inspected_witness :
  ValidateJsonClassHeader Fixture.unversioned_hello
  = ValidateJsonClassHeader Fixture.oddly_versioned_hello
  /\ forget_stream
       (LoadObjectFromStreamByType Fixture.blank Fixture.LabelId
          (Fixture.file_of Fixture.unversioned_hello) None)
     = forget_stream
         (LoadObjectFromStreamByType Fixture.blank Fixture.LabelId
            (Fixture.file_of Fixture.oddly_versioned_hello) None).
Proof.
  split.
  - apply (proj1 version_member_is_never_inspected). reflexivity.
  - eapply (proj2 version_member_is_never_inspected).
    + instantiate (1 := (("Type", JString "JsonSerialization")
                         :: ("Version", JString "two")
                         :: ("ClassName", JString "Label")
                         :: ("ClassData", Fixture.hello_payload) :: nil)).
      instantiate (1 := (("Type", JString "JsonSerialization")
                         :: ("ClassName", JString "Label")
                         :: ("ClassData", Fixture.hello_payload) :: nil)).
      reflexivity.
    + vm_compute. reflexivity.
    + vm_compute. reflexivity.
Defined.

(** ** Reading a stream *)

Lemma ParseJson_error_message {Obj : Type} `{!Engine Obj} (jsonText error : string) :
  ParseJson jsonText = AZ.Failure error ->
  exists rest, error = "JSON parse error at line " ++ rest.
Proof.
  unfold ParseJson. destruct (Document_Parse jsonText); [discriminate|].
  intros H. injection H as <-. eexists. reflexivity.
Qed.

(** C7.  [LoadJson] on a stream that reports more than 1 MiB returns the
    error "Data is too large." and the stream as it was given, nothing read
    from it, whatever the parser is; on a stream whose read gives fewer
    bytes than the length reported it returns the error "Cannot to read
    input stream.", again whatever the parser is.  The two errors differ
    from each other and from every error of the parser. *)
Theorem LoadJson_guards_size_and_short_read
  {Obj : Type} `{!Engine Obj} {S : Type} `{!GenericStream S} (stream : S) :
  MaxFileSize = 1048576
  /\ (MaxFileSize < GetLength stream ->
      LoadJson stream = (AZ.Failure "Data is too large.", stream))
  /\ (forall (data : string) (stream' : S),
         GetLength stream <= MaxFileSize ->
         Read (GetLength stream) stream = (data, stream') ->
         strlen data < GetLength stream ->
         LoadJson stream = (AZ.Failure "Cannot to read input stream.", stream'))
  /\ "Data is too large." <> "Cannot to read input stream."
  /\ (forall jsonText : string,
         ParseJson jsonText <> AZ.Failure "Data is too large."
         /\ ParseJson jsonText <> AZ.Failure "Cannot to read input stream.").
Proof.
  split; [reflexivity|]. split; [|split; [|split]].
  - intros H. unfold LoadJson. apply N.ltb_lt in H. now rewrite H.
  - intros data stream' Hmax Hread Hshort. unfold LoadJson.
    apply N.ltb_ge in Hmax. rewrite Hmax, Hread.
    assert ((strlen data =? GetLength stream) = false) as ->
        by (apply N.eqb_neq; lia).
    reflexivity.
  - discriminate.
  - intros jsonText.
    split; intros H; apply ParseJson_error_message in H as [rest H];
      discriminate H.
Qed.

Lemma LoadJson_guards_size_and_short_read_witness :
  LoadJson {| Fixture.file_size := 1048577; Fixture.file_bytes := "{}";
              Fixture.file_pos := 0 |}
  = (AZ.Failure "Data is too large.",
     {| Fixture.file_size := 1048577; Fixture.file_bytes := "{}";
        Fixture.file_pos := 0 |})
  /\ LoadJson {| Fixture.file_size := 10; Fixture.file_bytes := "{}";
                 Fixture.file_pos := 0 |}
     = (AZ.Failure "Cannot to read input stream.",
        {| Fixture.file_size := 10; Fixture.file_bytes := "{}";
           Fixture.file_pos := 2 |}).
Proof.
  split.
  - apply LoadJson_guards_size_and_short_read. reflexivity.
  - apply (LoadJson_guards_size_and_short_read
             {| Fixture.file_size := 10; Fixture.file_bytes := "{}";
                Fixture.file_pos := 0 |}) with (data := "{}").
    + vm_compute. discriminate.
    + reflexivity.
    + reflexivity.
Defined.

(** ** Saving to a file *)

(** C9.  [SaveObjectToFileByType] serializes into a buffer in memory first.
    When the serialization fails, whatever the reason, the files are left
    as they were, the file neither opened nor written, and the error of
    the serialization is the error returned; the file is opened only once
    the serialization has succeeded, and what is written to it is the
    buffer.  This holds whatever the file stream does to the files. *)
Theorem SaveObjectToFileByType_serializes_before_opening
  {Obj : Type} `{!Engine Obj} {W : Type} `{!FileIO W}
  (classPtr : Obj) (classId : AZ.Uuid)
  (filePath : string) (defaultClassPtr : option Obj)
  (settings : option (JsonSerializerSettings.t Obj)) (fs : W) :
  (forall (error : string) (byteStream : ByteContainerStream),
      SaveObjectToStreamByType classPtr classId {| m_buffer := ""; m_pos := 0 |}
        defaultClassPtr settings = Done (AZ.Failure error, byteStream) ->
      SaveObjectToFileByType classPtr classId filePath defaultClassPtr settings fs
      = Done (AZ.Failure error, fs))
  /\ (forall byteStream : ByteContainerStream,
         SaveObjectToStreamByType classPtr classId {| m_buffer := ""; m_pos := 0 |}
           defaultClassPtr settings = Done (AZ.Success tt, byteStream) ->
         SaveObjectToFileByType classPtr classId filePath defaultClassPtr settings fs
         = match OpenForWrite (c_str filePath) fs with
           | (true, opened) =>
               Done (AZ.Success tt,
                     WriteFile (c_str filePath) (m_buffer byteStream) opened)
           | (false, unopened) =>
               Done (AZ.Failure ("Error opening file '" ++ c_str filePath
                                 ++ "' for writing"), unopened)
           end).
Proof.
  split; intros; unfold SaveObjectToFileByType.
  - rewrite H. reflexivity.
  - rewrite H. cbn.
    now destruct (OpenForWrite (c_str filePath) fs) as [[|] opened].
Qed.

Lemma SaveObjectToFileByType_serializes_before_opening_witness :
  SaveObjectToStreamByType Fixture.hello Fixture.UnknownId
    {| m_buffer := ""; m_pos := 0 |} None None
  = Done (AZ.Failure "The mapper halted", {| m_buffer := ""; m_pos := 0 |})
  /\ SaveObjectToFileByType Fixture.hello Fixture.UnknownId "label.json" None None
       {| Fixture.m_files := ∅; Fixture.m_unwritable := ∅ |}
     = Done (AZ.Failure "The mapper halted",
             {| Fixture.m_files := ∅; Fixture.m_unwritable := ∅ |}).
Proof.
  split; [reflexivity|].
  apply (proj1 (SaveObjectToFileByType_serializes_before_opening
                  Fixture.hello Fixture.UnknownId "label.json" None None
                  {| Fixture.m_files := ∅; Fixture.m_unwritable := ∅ |}))
    with (byteStream := {| m_buffer := ""; m_pos := 0 |}).
  reflexivity.
Defined.

(** ** Loading *)

Lemma PrepareDeserializerSettings_installs {Obj : Type} `{!Engine Obj}
  (settings : option (JsonDeserializerSettings.t Obj))
  (loadSettings : PreparedSettings) :
  PrepareDeserializerSettings settings = AZ.Success loadSettings ->
  exists reporting,
    prepared_reporting loadSettings = issueReportingCallback reporting.
Proof.
  unfold PrepareDeserializerSettings.
  destruct (match JsonDeserializerSettings.m_serializeContext _ with
            | Some _ => _ | None => _ end); [|discriminate].
  intros H. injection H as <-. eexists. reflexivity.
Qed.

(** The verdict of the specification, as the test the two loads make. *)
Lemma spec_verdict_test {V : Type} (loaded : V) (result : ResultCode)
  (diagnostics : string) :
  (if negb (WasLoadSuccess (GetOutcome result))
      || negb (String.eqb diagnostics "")
   then AZ.Failure diagnostics
   else AZ.Success loaded)
  = spec_verdict loaded result diagnostics.
Proof.
  unfold spec_verdict, WasLoadSuccess.
  destruct (GetOutcome result), diagnostics; reflexivity.
Qed.

(** A load by type from the parse on, when the header is valid and the
    requested class is registered. *)
Lemma LoadObjectFromStreamByType_validated
  {Obj : Type} `{!Engine Obj} {S : Type} `{!GenericStream S}
  (objectToLoad : Obj) (classId : AZ.Uuid) (stream stream' : S)
  (settings : option (JsonDeserializerSettings.t Obj))
  (loadSettings : PreparedSettings) (members : list (string * Value))
  (className : string) (classData : ClassData) :
  PrepareDeserializerSettings settings = AZ.Success loadSettings ->
  LoadJson stream = (AZ.Success (JObject members), stream') ->
  ValidateJsonClassHeader (JObject members) = Done (AZ.Success tt) ->
  find_member members ClassNameTag = Some (JString className) ->
  FindClassData (prepared_serializeContext loadSettings) classId
  = Some classData ->
  LoadObjectFromStreamByType objectToLoad classId stream settings
  = if negb (Z.eqb (azstricmp (m_name classData) className) 0)
    then Done (AZ.Failure ("Try to load class " ++ c_str (m_name classData)
                           ++ " from class " ++ c_str className ++ " data"),
               objectToLoad, stream')
    else
      match find_member members ClassDataTag with
      | None => Crash EndIteratorDereference
      | Some payload =>
          let '(result, loaded, diagnostics) :=
            run (prepared_reporting loadSettings)
              (JsonSerialization_Load objectToLoad classId payload
                 (prepared_serializeContext loadSettings)) "" in
          Done (spec_verdict tt result diagnostics, loaded, stream')
      end.
Proof.
  intros Hprepare Hparse Hvalid Hname Hclass.
  unfold LoadObjectFromStreamByType.
  rewrite Hprepare, Hparse, Hvalid.
  cbn [FindMember mbind Exec_bind]. rewrite Hname.
  cbn [value GetString mbind Exec_bind]. rewrite Hclass.
  cbn [mbind Exec_bind]. rewrite azstricmp_c_str_r.
  destruct (negb _); [reflexivity|].
  destruct (find_member members ClassDataTag) as [payload|]; [|reflexivity].
  cbn [value mbind Exec_bind].
  destruct (run _ _ _) as [[result loaded] diagnostics].
  rewrite <- spec_verdict_test. now destruct (_ || _)%bool.
Qed.

(** A load of any object from the parse on, when the header names a class. *)
Lemma LoadAnyObjectFromStream_named
  {Obj : Type} `{!Engine Obj} {S : Type} `{!GenericStream S}
  (stream stream' : S) (settings : option (JsonDeserializerSettings.t Obj))
  (loadSettings : PreparedSettings) (members : list (string * Value))
  (className : string) :
  PrepareDeserializerSettings settings = AZ.Success loadSettings ->
  LoadJson stream = (AZ.Success (JObject members), stream') ->
  find_member members ClassNameTag = Some (JString className) ->
  LoadAnyObjectFromStream stream settings
  = match FindClassId (prepared_serializeContext loadSettings)
            (Crc32_of (c_str className)) with
    | nil => Done (AZ.Failure ("Can't find serialize context for class "
                               ++ c_str className), stream')
    | classId :: _ =>
        match find_member members ClassDataTag with
        | None => Crash EndIteratorDereference
        | Some payload =>
            let '(result, loaded, diagnostics) :=
              run (prepared_reporting loadSettings)
                (JsonSerialization_Load
                   (CreateAny (prepared_serializeContext loadSettings) classId)
                   classId payload (prepared_serializeContext loadSettings)) "" in
            Done (spec_verdict loaded result diagnostics, stream')
        end
    end.
Proof.
  intros Hprepare Hparse Hname.
  unfold LoadAnyObjectFromStream.
  rewrite Hprepare, Hparse, ValidateJsonClassHeader_object.
  cbn [FindMember mbind Exec_bind]. rewrite Hname.
  cbn [value GetString mbind Exec_bind].
  destruct (FindClassId _ _) as [|classId others]; [reflexivity|].
  destruct (find_member members ClassDataTag) as [payload|]; [|reflexivity].
  cbn [value mbind Exec_bind].
  destruct (run _ _ _) as [[result loaded] diagnostics].
  rewrite <- spec_verdict_test. now destruct (_ || _)%bool.
Qed.

(** C1.  A load that gets as far as the object mapper, by type or of any
    object, returns success exactly when the outcome the mapper ends with
    is Success, DefaultsUsed or PartialDefaults and the diagnostics of the
    call are empty.  In every other case it returns failure with the
    diagnostics as its error, also when the outcome is Success. *)
Theorem load_succeeds_iff_outcome_succeeds_without_diagnostics :
  (forall (Obj : Type) (E : Engine Obj) (S : Type) (G : GenericStream S)
      (objectToLoad : Obj) (classId : AZ.Uuid) (stream stream' : S)
      (settings : option (JsonDeserializerSettings.t Obj))
      (loadSettings : PreparedSettings) (members : list (string * Value))
      (className : string) (classData : ClassData) (payload : Value)
      (result : ResultCode) (loaded : Obj) (diagnostics : string),
      PrepareDeserializerSettings settings = AZ.Success loadSettings ->
      LoadJson stream = (AZ.Success (JObject members), stream') ->
      ValidateJsonClassHeader (JObject members) = Done (AZ.Success tt) ->
      find_member members ClassNameTag = Some (JString className) ->
      FindClassData (prepared_serializeContext loadSettings) classId
      = Some classData ->
      azstricmp (m_name classData) className = 0%Z ->
      find_member members ClassDataTag = Some payload ->
      run (prepared_reporting loadSettings)
        (JsonSerialization_Load objectToLoad classId payload
           (prepared_serializeContext loadSettings)) ""
      = (result, loaded, diagnostics) ->
      LoadObjectFromStreamByType objectToLoad classId stream settings
      = Done (spec_verdict tt result diagnostics, loaded, stream'))
  /\ (forall (Obj : Type) (E : Engine Obj) (S : Type) (G : GenericStream S)
        (classId : AZ.Uuid) (others : list AZ.Uuid) (stream stream' : S)
        (settings : option (JsonDeserializerSettings.t Obj))
        (loadSettings : PreparedSettings) (members : list (string * Value))
        (className : string) (payload : Value)
        (result : ResultCode) (loaded : Obj) (diagnostics : string),
         PrepareDeserializerSettings settings = AZ.Success loadSettings ->
         LoadJson stream = (AZ.Success (JObject members), stream') ->
         find_member members ClassNameTag = Some (JString className) ->
         FindClassId (prepared_serializeContext loadSettings)
           (Crc32_of (c_str className)) = classId :: others ->
         find_member members ClassDataTag = Some payload ->
         run (prepared_reporting loadSettings)
           (JsonSerialization_Load
              (CreateAny (prepared_serializeContext loadSettings) classId)
              classId payload (prepared_serializeContext loadSettings)) ""
         = (result, loaded, diagnostics) ->
         LoadAnyObjectFromStream stream settings
         = Done (spec_verdict loaded result diagnostics, stream'))
  /\ (forall (V : Type) (loaded : V) (result : ResultCode) (diagnostics : string),
         (spec_verdict loaded result diagnostics = AZ.Success loaded
          <-> (GetOutcome result = Success \/ GetOutcome result = DefaultsUsed
               \/ GetOutcome result = PartialDefaults)
              /\ diagnostics = "")
         /\ (spec_verdict loaded result diagnostics <> AZ.Success loaded ->
             spec_verdict loaded result diagnostics = AZ.Failure diagnostics)).
Proof.
  split; [|split].
  - intros Obj E S G objectToLoad classId stream stream' settings loadSettings
      members className classData payload result loaded diagnostics
      Hprepare Hparse Hvalid Hname Hclass Hsame Hdata Hrun.
    rewrite (LoadObjectFromStreamByType_validated objectToLoad classId stream
               stream' settings loadSettings members className classData)
      by assumption.
    rewrite Hsame, Hdata, Hrun. reflexivity.
  - intros Obj E S G classId others stream stream' settings loadSettings
      members className payload result loaded diagnostics
      Hprepare Hparse Hname Hids Hdata Hrun.
    rewrite (LoadAnyObjectFromStream_named stream stream' settings loadSettings
               members className) by assumption.
    rewrite Hids, Hdata, Hrun. reflexivity.
  - intros V loaded result diagnostics. unfold spec_verdict.
    destruct (GetOutcome result), diagnostics; split;
      try (split; [intros H; try discriminate H; repeat split; auto
                  | intros [[H|[H|H]] H']; try discriminate H;
                    try discriminate H'; reflexivity]);
      try (intros H; try reflexivity; now contradiction H).
Qed.

Lemma load_succeeds_iff_outcome_succeeds_without_diagnostics_witness :
  forget_stream
    (LoadObjectFromStreamByType Fixture.blank Fixture.LabelId
       (Fixture.file_of Fixture.hello_with_extra) None)
  = Done (AZ.Failure ("Skipping unknown field 'colour' " ++ String "010" ""),
          {| Fixture.text := "hello"; Fixture.size := 0 |})
  /\ forget_stream
       (LoadAnyObjectFromStream (Fixture.file_of Fixture.hello_with_extra) None)
     = Done (AZ.Failure ("Skipping unknown field 'colour' " ++ String "010" ""))
  /\ forget_stream
       (LoadAnyObjectFromStream (Fixture.file_of Fixture.saved_hello) None)
     = Done (AZ.Success Fixture.hello).
Proof.
  split; [|split].
  - erewrite (proj1 load_succeeds_iff_outcome_succeeds_without_diagnostics);
      cycle 1.
    + reflexivity.
    + vm_compute. reflexivity.
    + reflexivity.
    + reflexivity.
    + reflexivity.
    + reflexivity.
    + reflexivity.
    + vm_compute. reflexivity.
    + reflexivity.
  - erewrite (proj1 (proj2 load_succeeds_iff_outcome_succeeds_without_diagnostics));
      cycle 1.
    + reflexivity.
    + vm_compute. reflexivity.
    + reflexivity.
    + vm_compute. reflexivity.
    + reflexivity.
    + vm_compute. reflexivity.
    + reflexivity.
  - erewrite (proj1 (proj2 load_succeeds_iff_outcome_succeeds_without_diagnostics));
      cycle 1.
    + reflexivity.
    + vm_compute. reflexivity.
    + reflexivity.
    + vm_compute. reflexivity.
    + reflexivity.
    + vm_compute. reflexivity.
    + reflexivity.
Defined.

(** C6.  Once the header is valid, a load by type compares the ClassName of
    the document, read up to its first NUL, with the name registered for the
    requested type; when the two differ by more than case it returns a
    failure whose message holds the registered name and the stored name as
    so read, a message that is none of the three of the header validation,
    and the object is left as it was. *)
Theorem class_name_mismatch_names_both_classes
  {Obj : Type} `{!Engine Obj} {S : Type} `{!GenericStream S}
  (objectToLoad : Obj) (classId : AZ.Uuid) (stream stream' : S)
  (settings : option (JsonDeserializerSettings.t Obj))
  (loadSettings : PreparedSettings) (members : list (string * Value))
  (className : string) (classData : ClassData) :
  PrepareDeserializerSettings settings = AZ.Success loadSettings ->
  LoadJson stream = (AZ.Success (JObject members), stream') ->
  ValidateJsonClassHeader (JObject members) = Done (AZ.Success tt) ->
  find_member members ClassNameTag = Some (JString className) ->
  FindClassData (prepared_serializeContext loadSettings) classId
  = Some classData ->
  equal_ignoring_case (c_str (m_name classData)) (c_str className) = false ->
  let message := "Try to load class " ++ c_str (m_name classData)
                 ++ " from class " ++ c_str className ++ " data" in
  LoadObjectFromStreamByType objectToLoad classId stream settings
  = Done (AZ.Failure message, objectToLoad, stream')
  /\ message <> "Not a valid JsonSerialization file"
  /\ message <> "File should contain ClassName"
  /\ message <> "ClassData should be an object".
Proof.
  intros Hprepare Hparse Hvalid Hname Hclass Hdiffer message.
  split; [|repeat split; discriminate].
  rewrite (LoadObjectFromStreamByType_validated objectToLoad classId stream
             stream' settings loadSettings members className classData)
    by assumption.
  rewrite azstricmp_eqb, Hdiffer. reflexivity.
Qed.

Lemma class_name_mismatch_names_both_classes_witness :
  equal_ignoring_case (c_str "Label") (c_str ("Foo" ++ Fixture.junk)) = false
  /\ forget_stream
       (LoadObjectFromStreamByType Fixture.blank Fixture.LabelId
          (Fixture.file_of Fixture.cut_name) None)
     = Done (AZ.Failure "Try to load class Label from class Foo data",
             Fixture.blank).
Proof.
  split; [reflexivity|].
  assert (exists stream',
             LoadObjectFromStreamByType Fixture.blank Fixture.LabelId
               (Fixture.file_of Fixture.cut_name) None
             = Done (AZ.Failure "Try to load class Label from class Foo data",
                     Fixture.blank, stream')) as [stream' Hload].
  { eexists.
    eapply class_name_mismatch_names_both_classes
      with (className := "Foo" ++ Fixture.junk)
           (classData := {| m_name := "Label" |}).
    - reflexivity.
    - vm_compute. reflexivity.
    - reflexivity.
    - reflexivity.
    - reflexivity.
    - reflexivity. }
  rewrite Hload. reflexivity.
Defined.

(** C6 does not hold of the ClassName as the document has it.  A document
    whose ClassName is the registered name followed by a NUL and more text
    does not name the registered class, with or without regard to case; the
    load by type takes it for the registered name all the same, goes on to
    the object mapper and succeeds. *)
Lemma class_name_with_text_after_a_NUL_is_loaded :
  find_member
    match Fixture.trailed_name with JObject members => members | _ => nil end
    ClassNameTag
  = Some (JString ("Label" ++ Fixture.junk))
  /\ equal_ignoring_case ("Label" ++ Fixture.junk) "Label" = false
  /\ FindClassData Fixture.context Fixture.LabelId = Some {| m_name := "Label" |}
  /\ forget_stream
       (LoadObjectFromStreamByType Fixture.blank Fixture.LabelId
          (Fixture.file_of Fixture.trailed_name) None)
     = Done (AZ.Success tt, Fixture.hello).
Proof. repeat split; vm_compute; reflexivity. Qed.

(** ** The diagnostics *)

Lemma WasLoadSuccess_categories (outcome : Outcomes) :
  WasLoadSuccess outcome = true <-> success_category outcome.
Proof.
  unfold success_category.
  destruct outcome; cbn; intuition (try discriminate; try reflexivity).
Qed.

Lemma WasLoadSuccess_other (outcome : Outcomes) :
  outcome <> Success -> outcome <> DefaultsUsed ->
  outcome <> PartialDefaults -> WasLoadSuccess outcome = false.
Proof. destruct outcome; cbn; intros; (reflexivity || contradiction). Qed.

Lemma issueReportingCallback_quiet (reporting : option JsonIssueCallback)
  (message : string) (result : ResultCode) (target : string_view)
  (buffer : string) :
  quiet (message, result, target) ->
  snd (issueReportingCallback reporting message result target buffer) = buffer.
Proof.
  unfold quiet, issueReportingCallback. cbn [fst snd].
  intros [H| ->].
  - apply WasLoadSuccess_categories in H. now rewrite H.
  - unfold uuid_message. rewrite String.eqb_refl.
    now destruct (negb _).
Qed.

Lemma run_quiet {A : Type} (reporting : option JsonIssueCallback)
  (m : Mapper A) (buffer : string) :
  Forall quiet (reports (issueReportingCallback reporting) m buffer) ->
  snd (run (issueReportingCallback reporting) m buffer) = buffer.
Proof.
  revert buffer. induction m as [a|message result target k IH]; intros buffer.
  - reflexivity.
  - cbn [reports run].
    pose proof (issueReportingCallback_quiet reporting message result target
                  buffer) as Hquiet.
    destruct (issueReportingCallback reporting message result target buffer)
      as [result' buffer'].
    intros H. inversion H as [|? ? Hhead Htail]; subst.
    cbn [snd] in Hquiet. rewrite (Hquiet Hhead) in *.
    now apply IH.
Qed.



(** ** The header on the two loads *)

(** A load by type returns the failure of the validation. *)
Lemma LoadObjectFromStreamByType_invalid_header
  {Obj : Type} `{!Engine Obj} {S : Type} `{!GenericStream S}
  (objectToLoad : Obj) (classId : AZ.Uuid) (stream stream' : S)
  (settings : option (JsonDeserializerSettings.t Obj))
  (loadSettings : PreparedSettings) (jsonDocument : Document) (error : string) :
  PrepareDeserializerSettings settings = AZ.Success loadSettings ->
  LoadJson stream = (AZ.Success jsonDocument, stream') ->
  ValidateJsonClassHeader jsonDocument = Done (AZ.Failure error) ->
  LoadObjectFromStreamByType objectToLoad classId stream settings
  = Done (AZ.Failure error, objectToLoad, stream').
Proof.
  intros Hprepare Hparse Hvalid. unfold LoadObjectFromStreamByType.
  now rewrite Hprepare, Hparse, Hvalid.
Qed.

(** C5.  A document whose header fails the validation is not a terminal
    error for every load.  The document here has a Type that is not
    "JsonSerialization": the validation fails on it and the load by type
    returns that failure; the load of any object goes on to resolve the
    class name, runs the mapper and returns the object as a success. *)
Theorem LoadAnyObjectFromStream_goes_on_after_invalid_header :
  ValidateJsonClassHeader Fixture.mistyped_hello
  = Done (AZ.Failure "Not a valid JsonSerialization file")
  /\ forget_stream
       (LoadObjectFromStreamByType Fixture.blank Fixture.LabelId
          (Fixture.file_of Fixture.mistyped_hello) None)
     = Done (AZ.Failure "Not a valid JsonSerialization file", Fixture.blank)
  /\ forget_stream
       (LoadAnyObjectFromStream (Fixture.file_of Fixture.mistyped_hello) None)
     = Done (AZ.Success Fixture.hello).
Proof.
  split; [reflexivity|]. split; vm_compute; reflexivity.
Qed.

(** ** A type that is not registered *)

Lemma LoadObjectFromStreamByType_unregistered
  {Obj : Type} `{!Engine Obj} {S : Type} `{!GenericStream S}
  (objectToLoad : Obj) (classId : AZ.Uuid) (stream stream' : S)
  (settings : option (JsonDeserializerSettings.t Obj))
  (loadSettings : PreparedSettings) (members : list (string * Value)) :
  PrepareDeserializerSettings settings = AZ.Success loadSettings ->
  LoadJson stream = (AZ.Success (JObject members), stream') ->
  ValidateJsonClassHeader (JObject members) = Done (AZ.Success tt) ->
  FindClassData (prepared_serializeContext loadSettings) classId = None ->
  LoadObjectFromStreamByType objectToLoad classId stream settings
  = Crash NullDereference.
Proof.
  intros Hprepare Hparse Hvalid Hclass. unfold LoadObjectFromStreamByType.
  rewrite Hprepare, Hparse, Hvalid. cbn [FindMember mbind Exec_bind].
  rewrite ValidateJsonClassHeader_object in Hvalid.
  unfold spec_validateHeader, spec_header_checks, first_failure,
    spec_check_className in Hvalid.
  destruct (spec_check_fileTypeTag members); [|discriminate].
  unfold ClassNameTag.
  destruct (find_member members "ClassName") as [[| | | |name| |]|];
    try discriminate.
  cbn [value GetString mbind Exec_bind]. now rewrite Hclass.
Qed.

Lemma SaveObjectToStreamByType_unregistered
  {Obj : Type} `{!Engine Obj} {S : Type} `{!GenericStream S}
  (objectPtr : Obj) (classId : AZ.Uuid) (stream : S)
  (defaultObjectPtr : option Obj)
  (settings : option (JsonSerializerSettings.t Obj))
  (context : SerializeContext Obj) (jsonResult : ResultCode)
  (serializedObject : Value) :
  CanWrite stream = true ->
  context_for_saving settings = Some context ->
  JsonSerialization_Store objectPtr defaultObjectPtr classId
    (settings_for_store settings context) = (jsonResult, serializedObject) ->
  GetProcessing jsonResult = Completed ->
  FindClassData context classId = None ->
  SaveObjectToStreamByType objectPtr classId stream defaultObjectPtr settings
  = Crash NullDereference.
Proof.
  intros Hwrite Hcontext Hstore Hdone Hclass.
  unfold SaveObjectToStreamByType. rewrite Hwrite. cbn [negb].
  unfold context_for_saving, settings_for_store in *.
  destruct settings as [[[given|] reporting]|]; cbn in *.
  - injection Hcontext as ->. rewrite Hstore, Hdone, Hclass. reflexivity.
  - rewrite Hcontext, Hstore, Hdone, Hclass. reflexivity.
  - rewrite Hcontext, Hstore, Hdone, Hclass. reflexivity.
Qed.

(** C8.  A type id that is not registered does not make the load return a
    failure.  The id here is unknown to the registry and the document is
    well formed: the load by type takes the name of the class data the
    lookup did not find, and the call does not return.  The load of any
    object, for a name the registry does not know, returns a failure. *)
Theorem LoadObjectFromStreamByType_unregistered_type_does_not_return :
  FindClassData Fixture.context Fixture.UnknownId = None
  /\ LoadObjectFromStreamByType Fixture.blank Fixture.UnknownId
       (Fixture.file_of Fixture.saved_hello) None
     = Crash NullDereference
  /\ forget_stream
       (LoadAnyObjectFromStream (Fixture.file_of Fixture.foreign_hello) None)
     = Done (AZ.Failure "Can't find serialize context for class Foo").
Proof.
  split; [reflexivity|]. split; vm_compute; reflexivity.
Qed.

(** ** Saving, then loading *)

Lemma length_append (a b : string) :
  String.length (a ++ b) = (String.length a + String.length b)%nat.
Proof. induction a as [|c a IH]; simpl; [reflexivity|now rewrite IH]. Qed.

Lemma append_empty (a : string) : a ++ "" = a.
Proof.
  induction a as [|c a IH]; [reflexivity|].
  change (String c (a ++ "") = String c a). now rewrite IH.
Qed.

Lemma append_assoc (a b c : string) : (a ++ b) ++ c = a ++ (b ++ c).
Proof.
  induction a as [|x a IH]; [reflexivity|].
  change (String x ((a ++ b) ++ c) = String x (a ++ (b ++ c))).
  now rewrite IH.
Qed.

Lemma strlen_padding (n : N) : strlen (Fixture.padding n) = n.
Proof.
  unfold Fixture.padding. induction n as [|n IH] using N.peano_ind.
  - reflexivity.
  - rewrite N.iter_succ. unfold strlen in *. cbn [String.length].
    rewrite Nat2N.inj_succ, IH. reflexivity.
Qed.

(** What is written to a fresh byte stream is its buffer. *)
Lemma ByteContainer_Write_fresh (data : string) :
  m_buffer (ByteContainer_Write data fresh) = data.
Proof.
  unfold ByteContainer_Write, fresh. cbn [m_buffer m_pos String.substring].
  cbn [Nat.add String.length Nat.sub].
  destruct (String.length data); cbn [String.substring]; apply append_empty.
Qed.

(** A save whose mapper completes, for a registered class. *)
Lemma SaveObjectToStreamByType_completed
  {Obj : Type} `{!Engine Obj} {S : Type} `{!GenericStream S}
  (objectPtr : Obj) (classId : AZ.Uuid) (stream : S)
  (defaultObjectPtr : option Obj)
  (settings : option (JsonSerializerSettings.t Obj))
  (context : SerializeContext Obj) (jsonResult : ResultCode)
  (serializedObject : Value) (classData : ClassData) (text : string) :
  CanWrite stream = true ->
  context_for_saving settings = Some context ->
  JsonSerialization_Store objectPtr defaultObjectPtr classId
    (settings_for_store settings context) = (jsonResult, serializedObject) ->
  GetProcessing jsonResult = Completed ->
  FindClassData context classId = Some classData ->
  Document_Accept (envelope_of (c_str (m_name classData)) serializedObject)
  = (true, text) ->
  SaveObjectToStreamByType objectPtr classId stream defaultObjectPtr settings
  = Done (AZ.Success tt, Write text stream).
Proof.
  intros Hwrite Hcontext Hstore Hdone Hclass Haccept.
  unfold SaveObjectToStreamByType. rewrite Hwrite. cbn [negb].
  unfold context_for_saving, settings_for_store, envelope_of in *.
  destruct settings as [[[given|] reporting]|]; cbn in *.
  - injection Hcontext as ->.
    rewrite Hstore, Hdone, Hclass. cbn. now rewrite Haccept.
  - rewrite Hcontext, Hstore, Hdone, Hclass. cbn. now rewrite Haccept.
  - rewrite Hcontext, Hstore, Hdone, Hclass. cbn. now rewrite Haccept.
Qed.

(** A load stops at a stream that reports more than the maximum. *)
Lemma LoadObjectFromStreamByType_too_large
  {Obj : Type} `{!Engine Obj} {S : Type} `{!GenericStream S}
  (objectToLoad : Obj) (classId : AZ.Uuid) (stream : S)
  (settings : option (JsonDeserializerSettings.t Obj))
  (loadSettings : PreparedSettings) :
  PrepareDeserializerSettings settings = AZ.Success loadSettings ->
  MaxFileSize < GetLength stream ->
  LoadObjectFromStreamByType objectToLoad classId stream settings
  = Done (AZ.Failure "Data is too large.", objectToLoad, stream).
Proof.
  intros Hprepare Hlarge. unfold LoadObjectFromStreamByType, LoadJson.
  apply N.ltb_lt in Hlarge. now rewrite Hprepare, Hlarge.
Qed.

(** The text of a saved label is at least as long as the label's text. *)
Lemma render_label_length (t : string) (z : Z) :
  strlen t
  <= strlen (Fixture.render
               (envelope_of "Label"
                  (JObject (("text", JString t) :: ("size", JInt z) :: nil)))).
Proof.
  unfold envelope_of, FileTypeTag, FileType, VersionTag, ClassNameTag,
    ClassDataTag.
  cbn [Fixture.render].
  unfold strlen. rewrite !length_append. cbn [String.length]. lia.
Qed.

Lemma LoadJson_reads
  {Obj : Type} `{!Engine Obj} {S : Type} `{!GenericStream S}
  (stream stream' : S) (text : string) :
  GetLength stream = strlen text ->
  strlen text <= MaxFileSize ->
  Read (strlen text) stream = (text, stream') ->
  LoadJson stream = (ParseJson (text ++ String zero ""), stream').
Proof.
  intros Hlength Hmax Hread. unfold LoadJson. rewrite Hlength.
  apply N.ltb_ge in Hmax. rewrite Hmax, Hread, N.eqb_refl. reflexivity.
Qed.

(** The envelope a save builds passes the validation when its payload is an
    object. *)
Lemma ValidateJsonClassHeader_envelope (className : string) (payload : Value) :
  IsObject payload = true ->
  ValidateJsonClassHeader (envelope_of className payload) = Done (AZ.Success tt).
Proof.
  intros Hobject. unfold envelope_of.
  rewrite ValidateJsonClassHeader_object.
  destruct payload; try discriminate Hobject. reflexivity.
Qed.

(** What the two functions ask of their collaborators for a save and the
    load of what was saved to return the object: a reader that turns the
    text of the writer back into the document, and a mapper that loads what
    it stored without a report. *)
Lemma save_then_load_with_inverse_collaborators
  {Obj : Type} `{!Engine Obj} {W : Type} `{!GenericStream W}
  {S : Type} `{!GenericStream S}
  (object target : Obj) (classId : AZ.Uuid) (written : W) (stream stream' : S)
  (saveSettings : option (JsonSerializerSettings.t Obj))
  (settings : option (JsonDeserializerSettings.t Obj))
  (loadSettings : PreparedSettings) (context : SerializeContext Obj)
  (classData : ClassData) (stored loadedResult : ResultCode) (payload : Value)
  (text : string) :
  CanWrite written = true ->
  context_for_saving saveSettings = Some context ->
  PrepareDeserializerSettings settings = AZ.Success loadSettings ->
  prepared_serializeContext loadSettings = context ->
  FindClassData context classId = Some classData ->
  JsonSerialization_Store object None classId
    (settings_for_store saveSettings context) = (stored, payload) ->
  GetProcessing stored = Completed ->
  Document_Accept (envelope_of (c_str (m_name classData)) payload)
  = (true, text) ->
  GetLength stream = strlen text ->
  Read (strlen text) stream = (text, stream') ->
  Document_Parse (text ++ String zero "")
  = Parsed (envelope_of (c_str (m_name classData)) payload) ->
  run (prepared_reporting loadSettings)
    (JsonSerialization_Load target classId payload context) ""
  = (loadedResult, object, "") ->
  WasLoadSuccess (GetOutcome loadedResult) = true ->
  strlen text <= MaxFileSize ->
  IsObject payload = true ->
  SaveObjectToStreamByType object classId written None saveSettings
  = Done (AZ.Success tt, Write text written)
  /\ LoadObjectFromStreamByType target classId stream settings
     = Done (AZ.Success tt, object, stream').
Proof.
  intros Hwrite Hcontext Hprepare Hsame Hclass Hstore Hdone Haccept Hlength
    Hread Hparse Hrun Hsuccess Hmax Hobject.
  split.
  - now apply (SaveObjectToStreamByType_completed object classId written None
                 saveSettings context stored payload classData text).
  - subst context.
    rewrite (LoadObjectFromStreamByType_validated target classId stream stream'
               settings loadSettings
               ((FileTypeTag, JString FileType) :: (VersionTag, JInt 1)
                :: (ClassNameTag, JString (c_str (m_name classData)))
                :: (ClassDataTag, payload) :: nil)
               (c_str (m_name classData)) classData).
    + rewrite azstricmp_c_str_r, azstricmp_refl. cbn [Z.eqb negb find_member].
      unfold ClassDataTag, FileTypeTag, VersionTag, ClassNameTag.
      cbn [find_member String.eqb Ascii.eqb Bool.eqb].
      rewrite Hrun. unfold spec_verdict. unfold WasLoadSuccess in Hsuccess.
      destruct (GetOutcome loadedResult); try discriminate Hsuccess;
        reflexivity.
    + assumption.
    + rewrite (LoadJson_reads stream stream' text) by assumption.
      unfold ParseJson. now rewrite Hparse.
    + now apply ValidateJsonClassHeader_envelope.
    + reflexivity.
    + assumption.
Qed.

(** ** The reader reads what the writer wrote *)

Module ReflectedFacts.
Import Reflected.

Lemma parse_string_escape (s rest : string) :
  parse_string (escape s ++ String quote rest) = Some (s, rest).
Proof.
  induction s as [|c s IH].
  - reflexivity.
  - cbn [escape].
    destruct (Ascii.eqb c quote) eqn:Hquote;
      [|destruct (Ascii.eqb c backslash) eqn:Hback]; cbn [orb].
    + change (parse_string
                (String backslash
                   (String c (escape s ++ String quote rest))) = Some (String c s, rest)).
      cbn [parse_string]. rewrite Hquote. cbn [orb].
      change (Ascii.eqb backslash quote) with false.
      change (Ascii.eqb backslash backslash) with true.
      cbv iota. now rewrite IH.
    + change (parse_string
                (String backslash
                   (String c (escape s ++ String quote rest))) = Some (String c s, rest)).
      cbn [parse_string]. rewrite Hquote, Hback. cbn [orb].
      change (Ascii.eqb backslash quote) with false.
      change (Ascii.eqb backslash backslash) with true.
      cbv iota. now rewrite IH.
    + change (parse_string (String c (escape s ++ String quote rest))
              = Some (String c s, rest)).
      cbn [parse_string]. rewrite Hquote, Hback. now rewrite IH.
Qed.

Lemma digits_string_of_uint (d : Decimal.uint) (rest : string) :
  ends_number rest ->
  digits (NilEmpty.string_of_uint d ++ rest) = (NilEmpty.string_of_uint d, rest).
Proof.
  intros Hrest.
  induction d as [|d IH|d IH|d IH|d IH|d IH|d IH|d IH|d IH|d IH|d IH];
    [destruct rest as [|c rest]; [reflexivity|];
     unfold ends_number in Hrest;
     change (digits (String c rest) = ("", String c rest));
     cbn [digits]; now rewrite Hrest
    |cbn [NilEmpty.string_of_uint];
     match goal with
     | |- digits (String ?c ?s ++ rest) = _ =>
         change (digits (String c (s ++ rest)) = (String c s, rest))
     end;
     cbn [digits]; rewrite IH; reflexivity ..].
Qed.

Lemma string_of_uint_head (d : Decimal.uint) :
  d <> Decimal.Nil ->
  exists c t, NilEmpty.string_of_uint d = String c t /\ is_digit c = true.
Proof.
  intros Hd. destruct d; [now contradiction Hd| ..];
    cbn [NilEmpty.string_of_uint]; eexists; eexists; split; reflexivity.
Qed.

Lemma digit_is_no_sign (c : ascii) :
  is_digit c = true ->
  Ascii.eqb c "-" = false /\ Ascii.eqb c quote = false
  /\ Ascii.eqb c "{" = false.
Proof.
  intros Hc.
  repeat split;
    match goal with
    | |- Ascii.eqb c ?x = false =>
        destruct (Ascii.eqb_spec c x) as [->|_]; [discriminate Hc|reflexivity]
    end.
Qed.

Lemma parse_number_of_uint (d : Decimal.uint) (rest : string) :
  d <> Decimal.Nil -> ends_number rest ->
  parse_number (NilEmpty.string_of_uint d ++ rest)
  = Some (Z.of_int (Decimal.Pos d), rest)
  /\ parse_number (String "-" (NilEmpty.string_of_uint d ++ rest))
     = Some (Z.of_int (Decimal.Neg d), rest).
Proof.
  intros Hd Hrest.
  pose proof (digits_string_of_uint d rest Hrest) as Hdigits.
  pose proof (NilEmpty.isi (Decimal.Pos d)) as Hpos.
  pose proof (NilEmpty.isi (Decimal.Neg d)) as Hneg.
  cbn [NilEmpty.string_of_int] in Hpos, Hneg.
  destruct (string_of_uint_head d Hd) as [c [t [Hhead Hc]]].
  destruct (digit_is_no_sign c Hc) as [Hsign _].
  unfold parse_number. split.
  - rewrite Hhead at 1.
    change (String c t ++ rest) with (String c (t ++ rest)).
    cbv iota. rewrite Hsign. cbv iota.
    rewrite Hdigits, Hhead.
    change ("" ++ String c t) with (String c t).
    rewrite <- Hhead, Hpos. reflexivity.
  - change (Ascii.eqb "-" "-") with true. cbv iota.
    rewrite Hdigits, Hhead.
    change ("-" ++ String c t) with (String "-" (String c t)).
    rewrite <- Hhead, Hneg. reflexivity.
Qed.

Lemma parse_number_print (z : Z) (rest : string) :
  ends_number rest ->
  parse_number (print (JInt z) ++ rest) = Some (z, rest).
Proof.
  intros Hrest. cbn [print].
  rewrite <- (DecimalZ.of_to z) at 2.
  destruct z as [|p|p]; cbn [Z.to_int NilEmpty.string_of_int].
  - apply parse_number_of_uint; [discriminate|exact Hrest].
  - apply parse_number_of_uint;
      [apply DecimalPos.Unsigned.to_uint_nonnil|exact Hrest].
  - change (String "-" (NilEmpty.string_of_uint (Pos.to_uint p)) ++ rest)
      with (String "-" (NilEmpty.string_of_uint (Pos.to_uint p) ++ rest)).
    apply parse_number_of_uint;
      [apply DecimalPos.Unsigned.to_uint_nonnil|exact Hrest].
Qed.

(** A number starts with a digit or with its sign. *)
Lemma print_number_head (z : Z) (rest : string) :
  exists c t,
    print (JInt z) ++ rest = String c t
    /\ Ascii.eqb c quote = false /\ Ascii.eqb c "{" = false.
Proof.
  cbn [print].
  assert (forall d, d <> Decimal.Nil ->
                    exists c t,
                      NilEmpty.string_of_uint d ++ rest = String c t
                      /\ Ascii.eqb c quote = false
                      /\ Ascii.eqb c "{" = false) as Huint.
  { intros d Hd. destruct (string_of_uint_head d Hd) as [c [t [Hhead Hc]]].
    exists c, (t ++ rest). rewrite Hhead.
    split; [reflexivity|]. now apply digit_is_no_sign. }
  destruct z as [|p|p]; cbn [Z.to_int NilEmpty.string_of_int].
  - apply Huint. discriminate.
  - apply Huint. apply DecimalPos.Unsigned.to_uint_nonnil.
  - eexists; eexists. split; [reflexivity|]. split; reflexivity.
Qed.


Lemma print_object (members : list (string * Value)) :
  print (JObject members) = String "{" (print_members members).
Proof. reflexivity. Qed.

Lemma plain_object (members : list (string * Value)) :
  plain (JObject members) = plain_members members.
Proof. reflexivity. Qed.

Lemma weight_object (members : list (string * Value)) :
  weight (JObject members) = Datatypes.S (weight_members members).
Proof. reflexivity. Qed.

Lemma weight_positive (v : Value) : (1 <= weight v)%nat.
Proof. destruct v; cbn [weight]; lia. Qed.

(** Induction on what the reader can read back. *)
Lemma plain_ind (P : Value -> Prop) (Q : list (string * Value) -> Prop) :
  (forall z, P (JInt z)) ->
  (forall s, P (JString s)) ->
  (forall members, Q members -> P (JObject members)) ->
  Q nil ->
  (forall k x members, P x -> Q members -> Q ((k, x) :: members)) ->
  (forall v, plain v = true -> P v)
  /\ (forall members, plain_members members = true -> Q members).
Proof.
  intros Hint Hstring Hobject Hnil Hcons.
  assert (forall n,
             (forall v, (weight v <= n)%nat -> plain v = true -> P v)
             /\ (forall members, (weight_members members <= n)%nat ->
                                 plain_members members = true -> Q members))
    as Hall.
  { induction n as [|n [IHv IHm]].
    - split.
      + intros v Hv. pose proof (weight_positive v). lia.
      + intros [|[k x] r] Hw; [intros; exact Hnil|].
        cbn [weight_members] in Hw. lia.
    - split.
      + intros [| | | | |items|members] Hw Hplain; try discriminate Hplain.
        * apply Hint.
        * apply Hstring.
        * apply Hobject. apply IHm.
          -- rewrite weight_object in Hw. lia.
          -- now rewrite <- plain_object.
      + intros [|[k x] r] Hw Hplain; [exact Hnil|].
        cbn [weight_members] in Hw. cbn [plain_members] in Hplain.
        apply andb_prop in Hplain as [Hx Hr].
        apply Hcons; [apply IHv|apply IHm]; (lia || assumption). }
  split.
  - intros v. apply (proj1 (Hall (weight v))). lia.
  - intros members. apply (proj2 (Hall (weight_members members))). lia.
Qed.

Lemma print_string_append (s rest : string) :
  print_string s ++ rest = String quote (escape s ++ String quote rest).
Proof.
  unfold print_string.
  change (String quote (escape s ++ String quote "") ++ rest)
    with (String quote ((escape s ++ String quote "") ++ rest)).
  now rewrite append_assoc.
Qed.

(** A member as it is written, before what follows it. *)
Lemma print_member_append (k : string) (x : Value) (rest : string) :
  (print_string k ++ ":" ++ print x ++ rest)
  = String quote (escape k ++ String quote (String ":" (print x ++ rest))).
Proof. rewrite print_string_append. reflexivity. Qed.

Lemma print_members_cons (k : string) (x : Value)
  (members : list (string * Value)) (rest : string) :
  print_members ((k, x) :: members) ++ rest
  = String quote
      (escape k
       ++ String quote
            (String ":"
               (print x
                ++ match members with
                   | nil => String "}" rest
                   | _ => String "," (print_members members ++ rest)
                   end))).
Proof.
  destruct members as [|m r]; cbn [print_members];
    rewrite !append_assoc; rewrite print_member_append; reflexivity.
Qed.

Lemma parse_print :
  (forall v, plain v = true ->
             forall (n : nat) (rest : string),
               (weight v <= n)%nat -> ends_number rest ->
               parse_value n (print v ++ rest) = Some (v, rest))
  /\ (forall members,
         plain_members members = true ->
         members <> nil ->
         forall (n : nat) (rest : string),
           (weight_members members <= n)%nat ->
           parse_members n (print_members members ++ rest)
           = Some (members, rest)).
Proof.
  apply (plain_ind
           (fun v => forall (n : nat) (rest : string),
                (weight v <= n)%nat -> ends_number rest ->
                parse_value n (print v ++ rest) = Some (v, rest))
           (fun members =>
              members <> nil ->
              forall (n : nat) (rest : string),
                (weight_members members <= n)%nat ->
                parse_members n (print_members members ++ rest)
                = Some (members, rest))).
  - intros z [|n] rest Hw Hrest; [cbn in Hw; lia|].
    destruct (print_number_head z rest) as [c [t [Hhead [Hquote Hbrace]]]].
    cbn [parse_value]. rewrite Hhead, Hquote, Hbrace. rewrite <- Hhead.
    now rewrite parse_number_print.
  - intros s [|n] rest Hw Hrest; [cbn in Hw; lia|].
    cbn [print]. rewrite print_string_append.
    cbn [parse_value]. change (Ascii.eqb quote quote) with true. cbv iota.
    now rewrite parse_string_escape.
  - intros members IH [|n] rest Hw Hrest;
      [pose proof (weight_positive (JObject members)); lia|].
    rewrite weight_object in Hw. rewrite print_object.
    change (String "{" (print_members members) ++ rest)
      with (String "{" (print_members members ++ rest)).
    cbn [parse_value].
    change (Ascii.eqb "{" quote) with false.
    change (Ascii.eqb "{" "{") with true. cbv iota.
    destruct members as [|[k x] r]; [reflexivity|].
    pose proof (print_members_cons k x r rest) as Hhead.
    set (text := print_members ((k, x) :: r) ++ rest) in *.
    rewrite Hhead at 1. cbv beta iota delta [quote].
    subst text. rewrite IH; [reflexivity|discriminate|lia].
  - intros Hnil. now contradiction Hnil.
  - intros k x members IHx IHm _ [|n] rest Hw;
      [cbn [weight_members] in Hw; lia|].
    cbn [weight_members] in Hw.
    rewrite print_members_cons. cbn [parse_members].
    change (Ascii.eqb quote quote) with true. cbv iota.
    rewrite parse_string_escape.
    destruct members as [|m r].
    + rewrite IHx; [reflexivity|lia|reflexivity].
    + rewrite IHx; [|lia|reflexivity].
      rewrite IHm; [reflexivity|discriminate|cbn [weight_members] in *; lia].
Qed.


Lemma weight_within_length :
  (forall v, plain v = true -> (weight v <= String.length (print v))%nat)
  /\ (forall members,
         plain_members members = true ->
         (weight_members members <= String.length (print_members members))%nat).
Proof.
  apply (plain_ind
           (fun v => (weight v <= String.length (print v))%nat)
           (fun members =>
              (weight_members members
               <= String.length (print_members members))%nat)).
  - intros z. destruct (print_number_head z "") as [c [t [Hhead _]]].
    rewrite append_empty in Hhead. rewrite Hhead. cbn. lia.
  - intros s. cbn. lia.
  - intros members IH. rewrite weight_object, print_object.
    cbn [String.length]. lia.
  - cbn. lia.
  - intros k x members IHx IHm.
    rewrite <- (append_empty (print_members ((k, x) :: members))).
    rewrite print_members_cons. cbn [weight_members String.length].
    rewrite !length_append. cbn [String.length]. rewrite length_append.
    destruct members as [|m r]; cbn [String.length].
    + cbn [weight_members]. lia.
    + rewrite append_empty. lia.
Qed.

(** The reader gives back the document the writer wrote, from the text
    with its terminator. *)
Lemma parse_printed (v : Value) :
  plain v = true -> parse (print v ++ String zero "") = Parsed v.
Proof.
  intros Hplain. unfold parse.
  rewrite (proj1 parse_print v Hplain).
  - reflexivity.
  - rewrite length_append.
    pose proof (proj1 weight_within_length v Hplain). lia.
  - reflexivity.
Qed.

(** ** The mapper loads what it stored *)

Lemma plain_encode (object : Instance) : plain_members (encode object) = true.
Proof.
  induction object as [|[n f] r IH]; [reflexivity|].
  cbn [encode List.map plain_members fst snd].
  destruct f; cbn [encode_field plain]; exact IH.
Qed.

Lemma filter_all {A : Type} (keep : A -> bool) (l : list A) :
  (forall a, In a l -> keep a = true) -> List.filter keep l = l.
Proof.
  induction l as [|a l IH]; intros Hall; [reflexivity|].
  cbn [List.filter]. rewrite (Hall a) by now left.
  rewrite IH; [reflexivity|]. intros b Hb. apply Hall. now right.
Qed.

Lemma filter_none {A : Type} (keep : A -> bool) (l : list A) :
  (forall a, In a l -> keep a = false) -> List.filter keep l = nil.
Proof.
  induction l as [|a l IH]; intros Hall; [reflexivity|].
  cbn [List.filter]. rewrite (Hall a) by now left.
  apply IH. intros b Hb. apply Hall. now right.
Qed.

(** The instances of a shape have its names. *)
Lemma instance_of_names (shape object : Instance) :
  instance_of shape object = true ->
  List.map fst object = List.map fst shape.
Proof.
  revert object.
  induction shape as [|[n f] shape IH]; intros [|[m g] object] H;
    try discriminate H; [reflexivity|].
  cbn [instance_of] in H.
  apply andb_prop in H as [H Hrest]. apply andb_prop in H as [Hname _].
  apply String.eqb_eq in Hname. subst m.
  cbn [List.map fst]. now rewrite (IH object Hrest).
Qed.

Lemma find_member_encode (object : Instance) (n : string) (f : Field) :
  distinct (List.map fst object) = true ->
  In (n, f) object ->
  find_member (encode object) n = Some (encode_field f).
Proof.
  induction object as [|[m g] object IH]; intros Hdistinct Hin;
    [contradiction Hin|].
  cbn [List.map fst distinct] in Hdistinct.
  apply andb_prop in Hdistinct as [Hfresh Hdistinct].
  cbn [encode List.map find_member fst snd].
  destruct Hin as [Hhead|Htail].
  - injection Hhead as -> ->. now rewrite String.eqb_refl.
  - destruct (String.eqb_spec n m) as [->|_]; [|now apply IH].
    exfalso. apply Bool.negb_true_iff in Hfresh.
    assert (List.existsb (String.eqb m) (List.map fst object) = true) as Hex.
    { apply List.existsb_exists. exists m. split.
      - change m with (fst (m, f)). now apply List.in_map.
      - apply String.eqb_refl. }
    congruence.
Qed.

(** For a payload that has every field of an object under its name, the
    fields of a target of the shape of the object take the values of the
    object, and none is found of another kind. *)
Lemma decode_matching (members : list (string * Value))
  (shape object target : Instance) :
  instance_of shape object = true ->
  instance_of shape target = true ->
  (forall n f, In (n, f) object ->
               find_member members n = Some (encode_field f)) ->
  decode members target = object
  /\ List.filter (mismatched members) target = nil
  /\ List.filter (fun field =>
                    match matching members field with
                    | Some _ => true
                    | None => false
                    end) target = target.
Proof.
  revert object target.
  induction shape as [|[n s] shape IH];
    intros [|[m f] object] [|[m' g] target] Hobject Htarget Hfound;
    try discriminate Hobject; try discriminate Htarget;
    [repeat split|].
  cbn [instance_of] in Hobject, Htarget.
  apply andb_prop in Hobject as [Hobject Hobject'].
  apply andb_prop in Hobject as [Hname Hkind].
  apply andb_prop in Htarget as [Htarget Htarget'].
  apply andb_prop in Htarget as [Hname' Hkind'].
  apply String.eqb_eq in Hname, Hname'. subst m m'.
  destruct (IH object target Hobject' Htarget') as [Hdecode [Hnone Hall]].
  { intros k h Hin. apply Hfound. now right. }
  assert (matching members (n, g) = Some f) as Hmatch.
  { unfold matching. cbn [fst snd]. rewrite (Hfound n f) by now left.
    destruct s, f, g; try discriminate Hkind; try discriminate Hkind';
      reflexivity. }
  cbn [decode List.map List.filter].
  unfold decode_field at 1. unfold mismatched at 1. rewrite Hmatch.
  cbn [fst]. rewrite (Hfound n f) by now left.
  fold (decode members target). rewrite Hdecode, Hnone, Hall.
  repeat split.
Qed.

Lemma unknown_none (object target : Instance) :
  List.map fst object = List.map fst target ->
  List.filter (unknown target) (encode object) = nil.
Proof.
  intros Hnames. apply filter_none. intros [k v] Hin.
  unfold unknown. apply Bool.negb_false_iff. cbn [fst].
  apply List.existsb_exists.
  unfold encode in Hin. apply List.in_map_iff in Hin as [[n f] [Heq Hin]].
  injection Heq as <- _. cbn [fst].
  assert (In n (List.map fst target)) as Hn.
  { rewrite <- Hnames. change n with (fst (n, f)). now apply List.in_map. }
  apply List.in_map_iff in Hn as [field [Hfield Hin']].
  exists field. split; [exact Hin'|]. rewrite Hfield. apply String.eqb_refl.
Qed.

(** The load of what was stored of an object, into a target of its class,
    reports nothing and returns the object. *)
Lemma load_encoded (shape object target : Instance) (classId : AZ.Uuid)
  (registered : SerializeContext Instance) :
  instance_of shape object = true ->
  instance_of shape target = true ->
  distinct (List.map fst shape) = true ->
  load target classId (JObject (encode object)) registered
  = Return (Fixture.code Completed Success, object).
Proof.
  intros Hobject Htarget Hdistinct.
  pose proof (instance_of_names shape object Hobject) as Hnames.
  pose proof (instance_of_names shape target Htarget) as Hnames'.
  destruct (decode_matching (encode object) shape object target Hobject
              Htarget) as [Hdecode [Hnone Hall]].
  { intros n f. apply find_member_encode. now rewrite Hnames. }
  unfold load, issues.
  rewrite Hdecode, Hnone, Hall, unknown_none by congruence.
  cbn [List.map app report_all]. now rewrite Nat.eqb_refl.
Qed.
End ReflectedFacts.



(** A label whose text alone is longer than the maximum is saved, and
    what was saved is not loaded. *)
Lemma long_text_is_saved_and_not_loaded (t : string) :
  MaxFileSize < strlen t ->
  exists saved : ByteContainerStream,
    SaveObjectToStreamByType {| Fixture.text := t; Fixture.size := 0 |}
      Fixture.LabelId fresh None None
    = Done (AZ.Success tt, saved)
    /\ LoadObjectFromStreamByType Fixture.blank Fixture.LabelId
         (rewound saved) None
       = Done (AZ.Failure "Data is too large.", Fixture.blank, rewound saved).
Proof.
  intros Hlong. eexists. split.
  - apply (SaveObjectToStreamByType_completed
             {| Fixture.text := t; Fixture.size := 0 |}
             Fixture.LabelId fresh None None Fixture.context
             (Fixture.code Completed Success)
             (JObject (("text", JString t) :: ("size", JInt 0) :: nil))
             {| m_name := "Label" |}
             (Fixture.render
                (envelope_of "Label"
                   (JObject (("text", JString t) :: ("size", JInt 0) :: nil)))));
      reflexivity.
  - apply (LoadObjectFromStreamByType_too_large Fixture.blank Fixture.LabelId
             _ None
             {| prepared_serializeContext := Fixture.context;
                prepared_reporting := issueReportingCallback None |});
      [reflexivity|].
    match goal with
    | |- _ < GetLength (rewound (Write ?text fresh)) =>
        change (MaxFileSize < strlen (m_buffer (ByteContainer_Write text fresh)))
    end.
    rewrite ByteContainer_Write_fresh.
    eapply N.lt_le_trans; [exact Hlong|apply render_label_length].
Qed.


(** * Further properties *)

(** ** The line of a parse error *)

Lemma index_newline_cons (c : ascii) (rest : string) :
  String.index 0 (String "010" "") (String c rest)
  = if Ascii.eqb c "010" then Some 0%nat
    else option_map Datatypes.S (String.index 0 (String "010" "") rest).
Proof.
  cbn [String.index String.prefix].
  destruct (ascii_dec "010" c) as [<-|Hc].
  - rewrite Ascii.eqb_refl. now destruct rest.
  - destruct (Ascii.eqb_spec c "010") as [->|_]; [now contradiction Hc|].
    reflexivity.
Qed.

(** The search goes on in the rest of a text as it does in the text, one
    position to the left. *)
Lemma count_lines_shift (fuel : nat) (c : ascii) (rest : string)
  (searchOffset : option nat) (errorOffset lineNumber : N) :
  count_lines fuel (String c rest) (option_map Datatypes.S searchOffset)
    errorOffset lineNumber
  = count_lines fuel rest searchOffset (N.pred errorOffset) lineNumber.
Proof.
  revert searchOffset lineNumber.
  induction fuel as [|fuel IH]; intros [offset|] lineNumber; try reflexivity.
  cbn [count_lines option_map].
  replace (N.of_nat offset <? N.pred errorOffset)
    with (N.of_nat (Datatypes.S offset) <? errorOffset).
  - destruct (N.of_nat (Datatypes.S offset) <? errorOffset); [|reflexivity].
    rewrite <- IH. reflexivity.
  - destruct (N.ltb_spec (N.of_nat (Datatypes.S offset)) errorOffset),
      (N.ltb_spec (N.of_nat offset) (N.pred errorOffset)); try reflexivity; lia.
Qed.

Lemma count_newlines_0 (text : string) : count_newlines text 0 = 0%nat.
Proof. now destruct text. Qed.

(** With fuel for every character, the loop adds one line for every
    newline before the offset of the error. *)
Lemma count_lines_counts (jsonText : string) (fuel : nat)
  (errorOffset lineNumber : N) :
  (String.length jsonText < fuel)%nat ->
  count_lines fuel jsonText (String.index 0 (String "010" "") jsonText)
    errorOffset lineNumber
  = lineNumber + N.of_nat (count_newlines jsonText (N.to_nat errorOffset)).
Proof.
  revert fuel errorOffset lineNumber.
  induction jsonText as [|c rest IH]; intros fuel errorOffset lineNumber Hfuel.
  - destruct fuel; cbn; lia.
  - rewrite index_newline_cons.
    destruct fuel as [|fuel]; [cbn in Hfuel; lia|].
    cbn [String.length] in Hfuel.
    destruct (N.to_nat errorOffset) as [|before] eqn:Hoffset.
    + assert (errorOffset = 0) as -> by lia.
      destruct (Ascii.eqb c "010").
      * cbn [count_lines count_newlines].
        assert ((N.of_nat 0 <? 0) = false) as -> by reflexivity. lia.
      * rewrite count_lines_shift, IH by lia.
        change (N.to_nat (N.pred 0)) with 0%nat.
        rewrite count_newlines_0. cbn [count_newlines]. reflexivity.
    + assert (N.to_nat (N.pred errorOffset) = before) as Hpred by lia.
      cbn [count_newlines].
      destruct (Ascii.eqb c "010").
      * cbn [count_lines].
        assert ((N.of_nat 0 <? errorOffset) = true) as ->
            by (apply N.ltb_lt; lia).
        change (String.index (0 + 1) (String "010" "") (String c rest))
          with (option_map Datatypes.S (String.index 0 (String "010" "") rest)).
        rewrite count_lines_shift, IH, Hpred by lia. lia.
      * rewrite count_lines_shift, IH, Hpred by lia. lia.
Qed.

(** X1.  [ParseJson] returns the document of a text that parses, and for a
    text that does not the error "JSON parse error at line N: ..." where N
    is one more than the number of newlines of the text before the offset
    the parser gives for the error. *)
Theorem ParseJson_counts_the_lines_before_the_error
  {Obj : Type} `{!Engine Obj} (jsonText : string) :
  ParseJson jsonText
  = match Document_Parse jsonText with
    | Parsed jsonDocument => AZ.Success jsonDocument
    | ParseError errorOffset code =>
        AZ.Failure
          ("JSON parse error at line "
           ++ NilEmpty.string_of_uint
                (N.to_uint
                   (1 + N.of_nat (count_newlines jsonText
                                    (N.to_nat errorOffset))))
           ++ ": " ++ GetParseError_En code)
    end.
Proof.
  unfold ParseJson. destruct (Document_Parse jsonText); [reflexivity|].
  now rewrite count_lines_counts by lia.
Qed.

(** ** What the diagnostics hold *)

Lemma append_is_empty (a b : string) : a ++ b = "" -> a = "" /\ b = "".
Proof. destruct a; [now split|discriminate]. Qed.

Lemma issueReportingCallback_buffer (reporting : option JsonIssueCallback)
  (message : string) (result : ResultCode) (target : string_view)
  (buffer : string) :
  snd (issueReportingCallback reporting message result target buffer)
  = if loud (message, result, target)
    then buffer ++ diagnostic_line (message, result, target)
    else buffer.
Proof.
  unfold issueReportingCallback, loud, diagnostic_line, uuid_message,
    WasLoadSuccess.
  cbn [fst snd].
  destruct (GetOutcome result); cbn [Outcomes_eqb orb negb];
    try reflexivity;
    (destruct (negb (String.eqb message _)); [apply append_assoc|reflexivity]).
Qed.

Lemma run_diagnostics {A : Type} (reporting : option JsonIssueCallback)
  (m : Mapper A) (buffer : string) :
  snd (run (issueReportingCallback reporting) m buffer)
  = buffer
    ++ List.fold_right String.append ""
         (List.map diagnostic_line
            (List.filter loud (reports (issueReportingCallback reporting) m buffer))).
Proof.
  revert buffer. induction m as [a|message result target k IH]; intros buffer.
  - cbn. now rewrite append_empty.
  - cbn [run reports].
    pose proof (issueReportingCallback_buffer reporting message result target
                  buffer) as Hstep.
    destruct (issueReportingCallback reporting message result target buffer)
      as [result' buffer'].
    cbn [snd] in Hstep. rewrite IH. cbn [List.filter].
    destruct (loud (message, result, target)); subst buffer'.
    + cbn [List.map List.fold_right]. now rewrite append_assoc.
    + reflexivity.
Qed.

Lemma diagnostic_line_not_empty
  (report : string * ResultCode * string_view) :
  diagnostic_line report <> "".
Proof.
  unfold diagnostic_line. intros H.
  apply append_is_empty in H as [_ H]. discriminate H.
Qed.

Lemma run_loud {A : Type} (reporting : option JsonIssueCallback)
  (m : Mapper A) :
  List.existsb loud (reports (issueReportingCallback reporting) m "") = true ->
  snd (run (issueReportingCallback reporting) m "") <> "".
Proof.
  rewrite run_diagnostics.
  change ("" ++ ?s) with s.
  induction (reports (issueReportingCallback reporting) m "") as [|r rs IH];
    cbn [List.existsb List.filter]; [discriminate|].
  destruct (loud r); cbn [orb List.map List.fold_right].
  - intros _ H. apply append_is_empty in H as [H _].
    now apply diagnostic_line_not_empty in H.
  - exact IH.
Qed.

(** X2.  The diagnostics a run of the mapper leaves are those it started
    with, followed, in the order of the reports, by one line for every
    report whose outcome is none of Success, DefaultsUsed and
    PartialDefaults and whose message is not the filtered one: the message,
    a space, the path as [data()] reads it, between single quotes, a space
    and a newline.  The path so read is the characters of the view and those
    that follow them in its buffer, up to the first NUL.  Nothing else is
    ever written to the diagnostics, whatever the caller's callback
    answers. *)
Theorem diagnostics_are_the_lines_of_the_loud_reports {A : Type}
  (reporting : option JsonIssueCallback) (m : Mapper A) (buffer : string) :
  snd (run (issueReportingCallback reporting) m buffer)
  = buffer
    ++ List.fold_right String.append ""
         (List.map (fun report =>
                 fst (fst report) ++ " '"
                 ++ c_str (view (snd report) ++ past (snd report)) ++ "' "
                 ++ String "010" "")
            (List.filter
               (fun report =>
                  match GetOutcome (snd (fst report)) with
                  | Success | DefaultsUsed | PartialDefaults => false
                  | _ =>
                      negb (String.eqb (fst (fst report))
                              "No part of the string could be interpreted as a uuid.")
                  end)
               (reports (issueReportingCallback reporting) m buffer))).
Proof. apply run_diagnostics. Qed.

(** X3.  One report whose outcome is not a success category and whose
    message is not the filtered one is enough for a load to fail: whatever
    outcome the mapper ends with, a load that got to the mapper returns a
    failure, and its error is not empty. *)
Theorem one_loud_report_fails_the_load :
  (forall (Obj : Type) (E : Engine Obj) (S : Type) (G : GenericStream S)
      (objectToLoad : Obj) (classId : AZ.Uuid) (stream stream' : S)
      (settings : option (JsonDeserializerSettings.t Obj))
      (loadSettings : PreparedSettings) (members : list (string * Value))
      (className : string) (classData : ClassData) (payload : Value)
      (result : ResultCode) (loaded : Obj) (diagnostics : string),
      PrepareDeserializerSettings settings = AZ.Success loadSettings ->
      LoadJson stream = (AZ.Success (JObject members), stream') ->
      ValidateJsonClassHeader (JObject members) = Done (AZ.Success tt) ->
      find_member members ClassNameTag = Some (JString className) ->
      FindClassData (prepared_serializeContext loadSettings) classId
      = Some classData ->
      azstricmp (m_name classData) className = 0%Z ->
      find_member members ClassDataTag = Some payload ->
      run (prepared_reporting loadSettings)
        (JsonSerialization_Load objectToLoad classId payload
           (prepared_serializeContext loadSettings)) ""
      = (result, loaded, diagnostics) ->
      List.existsb loud
        (reports (prepared_reporting loadSettings)
           (JsonSerialization_Load objectToLoad classId payload
              (prepared_serializeContext loadSettings)) "") = true ->
      diagnostics <> ""
      /\ LoadObjectFromStreamByType objectToLoad classId stream settings
         = Done (AZ.Failure diagnostics, loaded, stream'))
  /\ (forall (Obj : Type) (E : Engine Obj) (S : Type) (G : GenericStream S)
        (classId : AZ.Uuid) (others : list AZ.Uuid) (stream stream' : S)
        (settings : option (JsonDeserializerSettings.t Obj))
        (loadSettings : PreparedSettings) (members : list (string * Value))
        (className : string) (payload : Value)
        (result : ResultCode) (loaded : Obj) (diagnostics : string),
         PrepareDeserializerSettings settings = AZ.Success loadSettings ->
         LoadJson stream = (AZ.Success (JObject members), stream') ->
         find_member members ClassNameTag = Some (JString className) ->
         FindClassId (prepared_serializeContext loadSettings)
           (Crc32_of (c_str className)) = classId :: others ->
         find_member members ClassDataTag = Some payload ->
         run (prepared_reporting loadSettings)
           (JsonSerialization_Load
              (CreateAny (prepared_serializeContext loadSettings) classId)
              classId payload (prepared_serializeContext loadSettings)) ""
         = (result, loaded, diagnostics) ->
         List.existsb loud
           (reports (prepared_reporting loadSettings)
              (JsonSerialization_Load
                 (CreateAny (prepared_serializeContext loadSettings) classId)
                 classId payload (prepared_serializeContext loadSettings)) "")
         = true ->
         diagnostics <> ""
         /\ LoadAnyObjectFromStream stream settings
            = Done (AZ.Failure diagnostics, stream')).
Proof.
  split.
  - intros Obj E S G objectToLoad classId stream stream' settings loadSettings
      members className classData payload result loaded diagnostics
      Hprepare Hparse Hvalid Hname Hclass Hsame Hdata Hrun Hloud.
    destruct (PrepareDeserializerSettings_installs settings loadSettings
                Hprepare) as [reporting Hcallback].
    assert (diagnostics <> "") as Hnot.
    { rewrite Hcallback in Hrun, Hloud. apply run_loud in Hloud.
      now rewrite Hrun in Hloud. }
    split; [exact Hnot|].
    rewrite (LoadObjectFromStreamByType_validated objectToLoad classId stream
               stream' settings loadSettings members className classData)
      by assumption.
    rewrite Hsame, Hdata, Hrun. cbn [negb Z.eqb]. unfold spec_verdict.
    destruct diagnostics; [now contradiction Hnot|].
    now destruct (GetOutcome result).
  - intros Obj E S G classId others stream stream' settings loadSettings
      members className payload result loaded diagnostics
      Hprepare Hparse Hname Hids Hdata Hrun Hloud.
    destruct (PrepareDeserializerSettings_installs settings loadSettings
                Hprepare) as [reporting Hcallback].
    assert (diagnostics <> "") as Hnot.
    { rewrite Hcallback in Hrun, Hloud. apply run_loud in Hloud.
      now rewrite Hrun in Hloud. }
    split; [exact Hnot|].
    rewrite (LoadAnyObjectFromStream_named stream stream' settings loadSettings
               members className) by assumption.
    rewrite Hids, Hdata, Hrun. unfold spec_verdict.
    destruct diagnostics; [now contradiction Hnot|].
    now destruct (GetOutcome result).
Qed.

Lemma one_loud_report_fails_the_load_witness :
  forget_stream
    (LoadObjectFromStreamByType Fixture.blank Fixture.LabelId
       (Fixture.file_of Fixture.hello_with_extra) None)
  = Done (AZ.Failure ("Skipping unknown field 'colour' " ++ String "010" ""),
          {| Fixture.text := "hello"; Fixture.size := 0 |})
  /\ forget_stream
       (LoadAnyObjectFromStream (Fixture.file_of Fixture.hello_with_extra) None)
     = Done (AZ.Failure ("Skipping unknown field 'colour' " ++ String "010" "")).
Proof.
  split.
  - assert (exists stream',
               LoadObjectFromStreamByType Fixture.blank Fixture.LabelId
                 (Fixture.file_of Fixture.hello_with_extra) None
               = Done (AZ.Failure ("Skipping unknown field 'colour' "
                                   ++ String "010" ""),
                       {| Fixture.text := "hello"; Fixture.size := 0 |},
                       stream')) as [stream' Hload].
    { eexists. eapply (proj1 one_loud_report_fails_the_load).
      - reflexivity.
      - vm_compute. reflexivity.
      - reflexivity.
      - reflexivity.
      - reflexivity.
      - reflexivity.
      - reflexivity.
      - reflexivity.
      - reflexivity. }
    rewrite Hload. reflexivity.
  - assert (exists stream',
               LoadAnyObjectFromStream
                 (Fixture.file_of Fixture.hello_with_extra) None
               = Done (AZ.Failure ("Skipping unknown field 'colour' "
                                   ++ String "010" ""),
                       stream')) as [stream' Hload].
    { eexists. eapply (proj2 one_loud_report_fails_the_load).
      - reflexivity.
      - vm_compute. reflexivity.
      - reflexivity.
      - vm_compute. reflexivity.
      - reflexivity.
      - reflexivity.
      - reflexivity. }
    rewrite Hload. reflexivity.
Defined.

(** ** Callbacks of the caller that only look *)

Lemma run_pass_through {A : Type} (callback : JsonIssueCallback)
  (m : Mapper A) (buffer : string) :
  (forall message result target, callback message result target = result) ->
  run (issueReportingCallback (Some callback)) m buffer
  = run (issueReportingCallback None) m buffer.
Proof.
  intros Hpass. revert buffer.
  induction m as [a|message result target k IH]; intros buffer.
  - reflexivity.
  - cbn [run]. unfold issueReportingCallback at 1 3.
    rewrite Hpass. apply IH.
Qed.

Lemma loads_pass_through
  {Obj : Type} `{!Engine Obj} {S : Type} `{!GenericStream S}
  (objectToLoad : Obj) (classId : AZ.Uuid) (stream : S)
  (context : SerializeContext Obj) (callback : JsonIssueCallback) :
  (forall message result target, callback message result target = result) ->
  LoadObjectFromStreamByType objectToLoad classId stream
    (Some (load_settings context (Some callback)))
  = LoadObjectFromStreamByType objectToLoad classId stream
      (Some (load_settings context None))
  /\ LoadAnyObjectFromStream stream
       (Some (load_settings context (Some callback)))
     = LoadAnyObjectFromStream stream (Some (load_settings context None)).
Proof.
  intros Hpass.
  unfold LoadObjectFromStreamByType, LoadAnyObjectFromStream,
    PrepareDeserializerSettings, load_settings.
  cbn [JsonDeserializerSettings.m_serializeContext
         JsonDeserializerSettings.m_reporting prepared_serializeContext
         prepared_reporting].
  destruct (LoadJson stream) as [[jsonDocument|error] stream']; [|now split].
  destruct (ValidateJsonClassHeader jsonDocument) as [validateResult|fault];
    [|now split].
  cbn [mbind Exec_bind].
  destruct (FindMember jsonDocument ClassNameTag) as [nameItr|fault];
    [|split; [now destruct validateResult|reflexivity]].
  cbn [mbind Exec_bind].
  destruct (value nameItr) as [nameValue|fault];
    [|split; [now destruct validateResult|reflexivity]].
  cbn [mbind Exec_bind].
  destruct (GetString nameValue) as [className|fault];
    [|split; [now destruct validateResult|reflexivity]].
  cbn [mbind Exec_bind].
  destruct (FindMember jsonDocument ClassDataTag) as [dataItr|fault].
  - cbn [mbind Exec_bind].
    destruct (value dataItr) as [payload|fault].
    + cbn [mbind Exec_bind]. split.
      * destruct validateResult; [|reflexivity].
        destruct (FindClassData context classId); [|reflexivity].
        cbn [mbind Exec_bind]. destruct (negb _); [reflexivity|].
        now rewrite run_pass_through.
      * destruct (FindClassId context (Crc32_of className)); [reflexivity|].
        now rewrite run_pass_through.
    + split.
      * destruct validateResult; [|reflexivity].
        destruct (FindClassData context classId); [|reflexivity].
        cbn [mbind Exec_bind]. now destruct (negb _).
      * now destruct (FindClassId context (Crc32_of className)).
  - split.
    + destruct validateResult; [|reflexivity].
      destruct (FindClassData context classId); [|reflexivity].
      cbn [mbind Exec_bind]. now destruct (negb _).
    + now destruct (FindClassId context (Crc32_of className)).
Qed.

(** X4.  A callback of the caller that returns every result as it gets it
    changes nothing in what a load returns: with it in the settings, a
    load by type and a load of any object give the result, the object and
    the stream they give with no callback. *)
Theorem observing_callback_does_not_change_the_load
  {Obj : Type} `{!Engine Obj} {S : Type} `{!GenericStream S}
  (objectToLoad : Obj) (classId : AZ.Uuid) (stream : S)
  (context : SerializeContext Obj) (callback : JsonIssueCallback) :
  (forall message result target, callback message result target = result) ->
  LoadObjectFromStreamByType objectToLoad classId stream
    (Some {| JsonDeserializerSettings.m_serializeContext := Some context;
             JsonDeserializerSettings.m_reporting := Some callback |})
  = LoadObjectFromStreamByType objectToLoad classId stream
      (Some {| JsonDeserializerSettings.m_serializeContext := Some context;
               JsonDeserializerSettings.m_reporting := None |})
  /\ LoadAnyObjectFromStream stream
       (Some {| JsonDeserializerSettings.m_serializeContext := Some context;
                JsonDeserializerSettings.m_reporting := Some callback |})
     = LoadAnyObjectFromStream stream
         (Some {| JsonDeserializerSettings.m_serializeContext := Some context;
                  JsonDeserializerSettings.m_reporting := None |}).
Proof. apply loads_pass_through. Qed.

Lemma observing_callback_does_not_change_the_load_witness :
  LoadObjectFromStreamByType Fixture.blank Fixture.LabelId
    (Fixture.file_of Fixture.hello_with_extra)
    (Some {| JsonDeserializerSettings.m_serializeContext := Some Fixture.context;
             JsonDeserializerSettings.m_reporting :=
               Some (fun _ result _ => result) |})
  = LoadObjectFromStreamByType Fixture.blank Fixture.LabelId
      (Fixture.file_of Fixture.hello_with_extra)
      (Some {| JsonDeserializerSettings.m_serializeContext := Some Fixture.context;
               JsonDeserializerSettings.m_reporting := None |}).
Proof.
  apply (observing_callback_does_not_change_the_load Fixture.blank
           Fixture.LabelId (Fixture.file_of Fixture.hello_with_extra)
           Fixture.context (fun _ result _ => result)).
  reflexivity.
Defined.

(** ** The common warnings *)

Lemma ReportCommonWarnings_result {Obj : Type} `{!Engine Obj}
  (Outcomes_value : Outcomes -> N) (message : string) (result : ResultCode)
  (path : string_view) :
  fst (ReportCommonWarnings Outcomes_value message result path) = result.
Proof.
  unfold ReportCommonWarnings.
  destruct (Outcomes_eqb _ _).
  - now destruct (String.index 0 "/#" (view path)).
  - now destruct (_ || _)%bool.
Qed.

(** X5.  [ReportCommonWarnings] in the settings of a load changes nothing
    in what the load returns: it hands every result back as it got it, so
    a load by type and a load of any object give what they give with no
    callback, whatever the values of the outcomes are. *)
Theorem ReportCommonWarnings_does_not_change_the_load
  {Obj : Type} `{!Engine Obj} {S : Type} `{!GenericStream S}
  (Outcomes_value : Outcomes -> N)
  (objectToLoad : Obj) (classId : AZ.Uuid) (stream : S)
  (context : SerializeContext Obj) :
  LoadObjectFromStreamByType objectToLoad classId stream
    (Some {| JsonDeserializerSettings.m_serializeContext := Some context;
             JsonDeserializerSettings.m_reporting :=
               Some (fun message result path =>
                       fst (ReportCommonWarnings Outcomes_value message
                              result path)) |})
  = LoadObjectFromStreamByType objectToLoad classId stream
      (Some {| JsonDeserializerSettings.m_serializeContext := Some context;
               JsonDeserializerSettings.m_reporting := None |})
  /\ LoadAnyObjectFromStream stream
       (Some {| JsonDeserializerSettings.m_serializeContext := Some context;
                JsonDeserializerSettings.m_reporting :=
                  Some (fun message result path =>
                          fst (ReportCommonWarnings Outcomes_value message
                                 result path)) |})
     = LoadAnyObjectFromStream stream
         (Some {| JsonDeserializerSettings.m_serializeContext := Some context;
                  JsonDeserializerSettings.m_reporting := None |}).
Proof.
  apply (loads_pass_through objectToLoad classId stream context
           (fun message result path =>
              fst (ReportCommonWarnings Outcomes_value message result path))).
  intros. apply ReportCommonWarnings_result.
Qed.

Lemma substring_append (a b : string) (n : nat) :
  String.substring (String.length a) n (a ++ b) = String.substring 0 n b.
Proof. induction a as [|c a IH]; [reflexivity|]. exact IH. Qed.

Lemma index_finds_what_is_there (needle before after : string) :
  needle <> "" ->
  String.index 0 needle (before ++ needle ++ after) <> None.
Proof.
  intros Hneedle Hnone.
  apply (index_correct3 0 (String.length before)) in Hnone;
    [|assumption|lia].
  apply Hnone. rewrite substring_append.
  clear. induction needle as [|c needle IH]; [now destruct after|].
  change (String c (String.substring 0 (String.length needle) (needle ++ after))
          = String c needle).
  now rewrite IH.
Qed.

(** X6.  For a result whose outcome is Skipped, [ReportCommonWarnings]
    raises no warning when the path holds "/#" anywhere, as it does for a
    member at any depth whose name starts with '#', also when the
    processing is not Completed; when the path holds no "/#" it raises
    one warning, "Skipped unrecognized field '<path>'", and nothing else.
    The path is the view, whatever follows it in its buffer; the warning
    prints it with [%.*s], which stops at a NUL. *)
Theorem ReportCommonWarnings_is_silent_on_comment_fields
  {Obj : Type} `{!Engine Obj} (Outcomes_value : Outcomes -> N)
  (message : string) (task : N) (processing : Processing) :
  (forall before after beyond : string,
      ReportCommonWarnings Outcomes_value message
        {| GetTask := task; GetProcessing := processing; GetOutcome := Skipped |}
        {| view := before ++ "/#" ++ after; past := beyond |}
      = ({| GetTask := task; GetProcessing := processing;
            GetOutcome := Skipped |}, nil))
  /\ (forall path : string_view,
         String.index 0 "/#" (view path) = None ->
         ReportCommonWarnings Outcomes_value message
           {| GetTask := task; GetProcessing := processing;
              GetOutcome := Skipped |} path
         = ({| GetTask := task; GetProcessing := processing;
               GetOutcome := Skipped |},
            ("Skipped unrecognized field '" ++ c_str (view path) ++ "'")
            :: nil)).
Proof.
  split.
  - intros before after beyond. unfold ReportCommonWarnings.
    cbn [GetOutcome Outcomes_eqb view].
    pose proof (index_finds_what_is_there "/#" before after) as Hfound.
    destruct (String.index 0 "/#" (before ++ "/#" ++ after));
      [reflexivity|].
    exfalso. now apply Hfound.
  - intros path Hnone. unfold ReportCommonWarnings.
    cbn [GetOutcome Outcomes_eqb]. now rewrite Hnone.
Qed.

Lemma ReportCommonWarnings_is_silent_on_comment_fields_witness :
  String.index 0 "/#" "/colour" = None
  /\ @ReportCommonWarnings _ Fixture.engine (fun _ => 0) "Skipping unknown field"
       {| GetTask := 0; GetProcessing := Halted; GetOutcome := Skipped |}
       {| view := "/colour"; past := "/shade" |}
     = ({| GetTask := 0; GetProcessing := Halted; GetOutcome := Skipped |},
        "Skipped unrecognized field '/colour'" :: nil)
  /\ @ReportCommonWarnings _ Fixture.engine (fun _ => 0) "Skipping unknown field"
       {| GetTask := 0; GetProcessing := Halted; GetOutcome := Skipped |}
       (whole "/nested/#note/colour")
     = ({| GetTask := 0; GetProcessing := Halted; GetOutcome := Skipped |}, nil).
Proof.
  split; [reflexivity|]. split.
  - apply (proj2 (ReportCommonWarnings_is_silent_on_comment_fields
                    (fun _ => 0) "Skipping unknown field" 0 Halted)
             {| view := "/colour"; past := "/shade" |}).
    reflexivity.
  - apply (proj1 (ReportCommonWarnings_is_silent_on_comment_fields
                    (fun _ => 0) "Skipping unknown field" 0 Halted)
             "/nested" "note/colour" "").
Defined.

(** ** Saving: what is checked, and in which order *)

Lemma Processing_eqb_Completed (processing : Processing) :
  Processing_eqb processing Completed = true <-> processing = Completed.
Proof. destruct processing; cbn; split; congruence. Qed.

(** X7.  With no serialize context, neither in the settings nor from the
    application, a load fails with "Need SerializeContext for loading" and
    hands back the stream and the object as they were given, nothing read;
    a save fails with "Need SerializeContext for saving" and writes
    nothing, unless the stream cannot be written to, which is reported
    first. *)
Theorem without_a_context_nothing_is_read_or_written
  {Obj : Type} `{!Engine Obj} {S : Type} `{!GenericStream S}
  (object : Obj) (classId : AZ.Uuid) (stream : S)
  (defaultObjectPtr : option Obj)
  (saveSettings : option (JsonSerializerSettings.t Obj))
  (settings : option (JsonDeserializerSettings.t Obj)) :
  GetSerializeContext = None ->
  (context_given settings = None ->
   LoadObjectFromStreamByType object classId stream settings
   = Done (AZ.Failure "Need SerializeContext for loading", object, stream)
   /\ LoadAnyObjectFromStream stream settings
      = Done (AZ.Failure "Need SerializeContext for loading", stream))
  /\ (context_for_saving saveSettings = None ->
      SaveObjectToStreamByType object classId stream defaultObjectPtr
        saveSettings
      = Done (AZ.Failure (if CanWrite stream
                          then "Need SerializeContext for saving"
                          else "The GenericStream can't be written to"),
              stream)).
Proof.
  intros Hbus. split.
  - intros Hgiven.
    unfold LoadObjectFromStreamByType, LoadAnyObjectFromStream,
      PrepareDeserializerSettings.
    unfold context_given in Hgiven.
    destruct settings as [given|]; cbn in *; rewrite ?Hgiven, Hbus; now split.
  - intros Hnone. unfold SaveObjectToStreamByType.
    destruct (CanWrite stream); [|reflexivity]. cbn [negb].
    unfold context_for_saving in Hnone.
    destruct saveSettings as [[[given|] reporting]|]; cbn in *;
      try discriminate Hnone; now rewrite Hbus.
Qed.

Lemma without_a_context_nothing_is_read_or_written_witness :
  @LoadObjectFromStreamByType Z Probe.engine _ _ 0%Z Probe.CountId
    (Probe.file_of Probe.saved_five) None
  = Done (AZ.Failure "Need SerializeContext for loading", 0%Z,
          Probe.file_of Probe.saved_five)
  /\ @SaveObjectToStreamByType Z Probe.engine _ _ 5%Z Probe.CountId fresh
       None None
     = Done (AZ.Failure "Need SerializeContext for saving", fresh).
Proof.
  split.
  - apply (@without_a_context_nothing_is_read_or_written Z Probe.engine _ _
             0%Z Probe.CountId (Probe.file_of Probe.saved_five) None None None);
      reflexivity.
  - exact (proj2 (@without_a_context_nothing_is_read_or_written Z Probe.engine
                    _ _ 5%Z Probe.CountId fresh None None None eq_refl)
             eq_refl).
Defined.

(** X8.  When the writer gives up, a save returns the failure "Unable to
    write class <id> with json serialization format'" and the stream holds
    what the writer had put to it by then.  Every other failure of a save
    leaves the stream as it was given. *)
Theorem failed_save_writes_only_when_the_writer_gives_up
  {Obj : Type} `{!Engine Obj} {S : Type} `{!GenericStream S}
  (objectPtr : Obj) (classId : AZ.Uuid) (stream : S)
  (defaultObjectPtr : option Obj)
  (settings : option (JsonSerializerSettings.t Obj)) :
  (forall (context : SerializeContext Obj) (jsonResult : ResultCode)
      (serializedObject : Value) (classData : ClassData) (text : string),
      CanWrite stream = true ->
      context_for_saving settings = Some context ->
      JsonSerialization_Store objectPtr defaultObjectPtr classId
        (settings_for_store settings context) = (jsonResult, serializedObject) ->
      GetProcessing jsonResult = Completed ->
      FindClassData context classId = Some classData ->
      Document_Accept
        (JObject ((FileTypeTag, JString FileType)
                  :: (VersionTag, JInt 1)
                  :: (ClassNameTag, JString (c_str (m_name classData)))
                  :: (ClassDataTag, serializedObject) :: nil))
      = (false, text) ->
      SaveObjectToStreamByType objectPtr classId stream defaultObjectPtr
        settings
      = Done (AZ.Failure ("Unable to write class " ++ Uuid_ToString classId
                          ++ " with json serialization format'"),
              Write text stream))
  /\ (forall (error : string) (stream' : S),
         SaveObjectToStreamByType objectPtr classId stream defaultObjectPtr
           settings = Done (AZ.Failure error, stream') ->
         error <> "Unable to write class " ++ Uuid_ToString classId
                  ++ " with json serialization format'" ->
         stream' = stream).
Proof.
  split.
  - intros context jsonResult serializedObject classData text
      Hwrite Hcontext Hstore Hdone Hclass Haccept.
    unfold SaveObjectToStreamByType. rewrite Hwrite. cbn [negb].
    unfold context_for_saving, settings_for_store in *.
    destruct settings as [[[given|] reporting]|]; cbn in *.
    + injection Hcontext as ->.
      rewrite Hstore, Hdone, Hclass. cbn. now rewrite Haccept.
    + rewrite Hcontext, Hstore, Hdone, Hclass. cbn. now rewrite Haccept.
    + rewrite Hcontext, Hstore, Hdone, Hclass. cbn. now rewrite Haccept.
  - intros error stream'. unfold SaveObjectToStreamByType.
    destruct (negb (CanWrite stream)); [congruence|].
    destruct (match JsonSerializerSettings.m_serializeContext _ with
              | Some _ => _ | None => _ end) as [context|]; [|congruence].
    destruct (JsonSerialization_Store _ _ _ _) as [jsonResult serializedObject].
    destruct (negb (Processing_eqb _ _)); [congruence|].
    destruct (FindClassData context classId); [|discriminate].
    cbn [mbind Exec_bind].
    destruct (Document_Accept _) as [[|] text]; cbn [negb]; [discriminate|].
    intros H Hother. injection H as <- _. now contradiction Hother.
Qed.

Lemma failed_save_writes_only_when_the_writer_gives_up_witness :
  @SaveObjectToStreamByType Z Probe.engine _ _ (-1)%Z Probe.CountId fresh None
    Probe.save_settings
  = Done (AZ.Failure "Unable to write class 3 with json serialization format'",
          Write "{" fresh).
Proof.
  apply (proj1 (@failed_save_writes_only_when_the_writer_gives_up Z
                  Probe.engine _ _ (-1)%Z Probe.CountId fresh None
                  Probe.save_settings)
           Probe.context (Fixture.code Completed Success) (JInt (-1))
           {| m_name := "Count" |} "{");
    reflexivity.
Defined.

(** X9.  When the mapper does not complete, a save returns the text of the
    mapper's result code as its failure and leaves the stream as it was;
    the registry is not asked for the class, so this holds for a type id
    that is not registered as well. *)
Theorem halted_mapper_fails_the_save
  {Obj : Type} `{!Engine Obj} {S : Type} `{!GenericStream S}
  (objectPtr : Obj) (classId : AZ.Uuid) (stream : S)
  (defaultObjectPtr : option Obj)
  (settings : option (JsonSerializerSettings.t Obj))
  (context : SerializeContext Obj) (jsonResult : ResultCode)
  (serializedObject : Value) :
  CanWrite stream = true ->
  context_for_saving settings = Some context ->
  JsonSerialization_Store objectPtr defaultObjectPtr classId
    (settings_for_store settings context) = (jsonResult, serializedObject) ->
  GetProcessing jsonResult <> Completed ->
  SaveObjectToStreamByType objectPtr classId stream defaultObjectPtr settings
  = Done (AZ.Failure (ResultCode_ToString jsonResult ""), stream).
Proof.
  intros Hwrite Hcontext Hstore Hhalted.
  assert (Processing_eqb (GetProcessing jsonResult) Completed = false) as Heqb.
  { destruct (Processing_eqb _ _) eqn:E; [|reflexivity].
    now apply Processing_eqb_Completed in E. }
  unfold SaveObjectToStreamByType. rewrite Hwrite. cbn [negb].
  unfold context_for_saving, settings_for_store in *.
  destruct settings as [[[given|] reporting]|]; cbn in *.
  - injection Hcontext as ->. now rewrite Hstore, Heqb.
  - now rewrite Hcontext, Hstore, Heqb.
  - now rewrite Hcontext, Hstore, Heqb.
Qed.

Lemma halted_mapper_fails_the_save_witness :
  FindClassData Fixture.context Fixture.UnknownId = None
  /\ SaveObjectToStreamByType Fixture.hello Fixture.UnknownId fresh None None
     = Done (AZ.Failure "The mapper halted", fresh).
Proof.
  split; [reflexivity|].
  refine (halted_mapper_fails_the_save Fixture.hello Fixture.UnknownId fresh
            None None Fixture.context
            (Fixture.code Halted (OtherOutcome 12)) JNull
            eq_refl eq_refl eq_refl _).
  discriminate.
Defined.

(** X10.  When the mapper completes for a type id that the registry does
    not know, a save takes the name of class data that is not there: the
    call does not return, and nothing is written. *)
Theorem save_of_unregistered_type_does_not_return
  {Obj : Type} `{!Engine Obj} {S : Type} `{!GenericStream S}
  (objectPtr : Obj) (classId : AZ.Uuid) (stream : S)
  (defaultObjectPtr : option Obj)
  (settings : option (JsonSerializerSettings.t Obj))
  (context : SerializeContext Obj) (jsonResult : ResultCode)
  (serializedObject : Value) :
  CanWrite stream = true ->
  context_for_saving settings = Some context ->
  JsonSerialization_Store objectPtr defaultObjectPtr classId
    (settings_for_store settings context) = (jsonResult, serializedObject) ->
  GetProcessing jsonResult = Completed ->
  FindClassData context classId = None ->
  SaveObjectToStreamByType objectPtr classId stream defaultObjectPtr settings
  = Crash NullDereference.
Proof. apply SaveObjectToStreamByType_unregistered. Qed.

Lemma save_of_unregistered_type_does_not_return_witness :
  @SaveObjectToStreamByType Z Probe.engine _ _ 5%Z Probe.StrangerId fresh None
    Probe.save_settings
  = Crash NullDereference.
Proof.
  apply (@save_of_unregistered_type_does_not_return Z Probe.engine _ _ 5%Z
           Probe.StrangerId fresh None Probe.save_settings Probe.context
           (Fixture.code Completed Success) (JInt 5));
    reflexivity.
Defined.

(** ** Loading: documents the header lets through, and documents it stops *)

Lemma ValidateJsonClassHeader_envelope_not_object (className : string)
  (payload : Value) :
  IsObject payload = false ->
  ValidateJsonClassHeader (envelope_of className payload)
  = Done (AZ.Failure "ClassData should be an object").
Proof.
  intros Hobject. unfold envelope_of.
  rewrite ValidateJsonClassHeader_object.
  destruct payload; try discriminate Hobject; reflexivity.
Qed.

(** X11.  An object that the mapper stores as a value that is not a JSON
    object is saved with success, and what was saved cannot be loaded by
    type: the load of the text saved returns "ClassData should be an
    object" and leaves the target as it was. *)
Theorem saved_payload_that_is_not_an_object_is_not_loaded
  {Obj : Type} `{!Engine Obj} {W : Type} `{!GenericStream W}
  {S : Type} `{!GenericStream S}
  (object target : Obj) (classId : AZ.Uuid) (written : W) (stream stream' : S)
  (saveSettings : option (JsonSerializerSettings.t Obj))
  (settings : option (JsonDeserializerSettings.t Obj))
  (loadSettings : PreparedSettings) (context : SerializeContext Obj)
  (classData : ClassData) (stored : ResultCode) (payload : Value)
  (text : string) :
  CanWrite written = true ->
  context_for_saving saveSettings = Some context ->
  PrepareDeserializerSettings settings = AZ.Success loadSettings ->
  FindClassData context classId = Some classData ->
  JsonSerialization_Store object None classId
    (settings_for_store saveSettings context) = (stored, payload) ->
  GetProcessing stored = Completed ->
  Document_Accept (envelope_of (c_str (m_name classData)) payload)
  = (true, text) ->
  GetLength stream = strlen text ->
  Read (strlen text) stream = (text, stream') ->
  Document_Parse (text ++ String zero "")
  = Parsed (envelope_of (c_str (m_name classData)) payload) ->
  strlen text <= MaxFileSize ->
  IsObject payload = false ->
  SaveObjectToStreamByType object classId written None saveSettings
  = Done (AZ.Success tt, Write text written)
  /\ LoadObjectFromStreamByType target classId stream settings
     = Done (AZ.Failure "ClassData should be an object", target, stream').
Proof.
  intros Hwrite Hcontext Hprepare Hclass Hstore Hdone Haccept Hlength Hread
    Hparse Hmax Hobject.
  split.
  - now apply (SaveObjectToStreamByType_completed object classId written None
                 saveSettings context stored payload classData text).
  - apply (LoadObjectFromStreamByType_invalid_header target classId stream
             stream' settings loadSettings
             (envelope_of (c_str (m_name classData)) payload)).
    + assumption.
    + rewrite (LoadJson_reads stream stream' text) by assumption.
      unfold ParseJson. now rewrite Hparse.
    + now apply ValidateJsonClassHeader_envelope_not_object.
Qed.

Lemma saved_payload_that_is_not_an_object_is_not_loaded_witness :
  @SaveObjectToStreamByType Z Probe.engine _ _ 5%Z Probe.CountId fresh None
    Probe.save_settings
  = Done (AZ.Success tt, Write (Fixture.render Probe.saved_five) fresh)
  /\ forget_stream
       (@LoadObjectFromStreamByType Z Probe.engine _ _ 0%Z Probe.CountId
          (Probe.file_of Probe.saved_five)
          (Some (load_settings Probe.context None)))
     = Done (AZ.Failure "ClassData should be an object", 0%Z).
Proof.
  destruct (@saved_payload_that_is_not_an_object_is_not_loaded Z Probe.engine
              _ _ _ _ 5%Z 0%Z Probe.CountId fresh
              (Probe.file_of Probe.saved_five)
              (Read 74 (Probe.file_of Probe.saved_five)).2
              Probe.save_settings (Some (load_settings Probe.context None))
              {| prepared_serializeContext := Probe.context;
                 prepared_reporting := issueReportingCallback None |}
              Probe.context {| m_name := "Count" |}
              (Fixture.code Completed Success) (JInt 5)
              (Fixture.render Probe.saved_five))
    as [Hsave Hload];
    try reflexivity.
  - vm_compute. discriminate.
  - split; [exact Hsave|]. rewrite Hload. reflexivity.
Defined.

(** X14.  When the registry knows no class under the ClassName of the
    document, read up to its first NUL, the load of any object returns the
    failure "Can't find serialize context for class <name>", with the name
    as so read: no object is made and the mapper is not run, whether the
    header of the document is valid or not. *)
Theorem load_of_any_object_fails_on_an_unknown_class_name
  {Obj : Type} `{!Engine Obj} {S : Type} `{!GenericStream S}
  (stream stream' : S) (settings : option (JsonDeserializerSettings.t Obj))
  (loadSettings : PreparedSettings) (members : list (string * Value))
  (className : string) :
  PrepareDeserializerSettings settings = AZ.Success loadSettings ->
  LoadJson stream = (AZ.Success (JObject members), stream') ->
  find_member members ClassNameTag = Some (JString className) ->
  FindClassId (prepared_serializeContext loadSettings)
    (Crc32_of (c_str className)) = nil ->
  LoadAnyObjectFromStream stream settings
  = Done (AZ.Failure ("Can't find serialize context for class "
                      ++ c_str className), stream').
Proof.
  intros Hprepare Hparse Hname Hids.
  rewrite (LoadAnyObjectFromStream_named stream stream' settings loadSettings
             members className) by assumption.
  now rewrite Hids.
Qed.

Lemma load_of_any_object_fails_on_an_unknown_class_name_witness :
  forget_stream
    (LoadAnyObjectFromStream (Fixture.file_of Fixture.cut_name) None)
  = Done (AZ.Failure "Can't find serialize context for class Foo").
Proof.
  assert (exists stream',
             LoadAnyObjectFromStream (Fixture.file_of Fixture.cut_name)
               None
             = Done (AZ.Failure "Can't find serialize context for class Foo",
                     stream')) as [stream' Hload].
  { eexists.
    eapply load_of_any_object_fails_on_an_unknown_class_name
      with (className := "Foo" ++ Fixture.junk).
    - reflexivity.
    - vm_compute. reflexivity.
    - reflexivity.
    - reflexivity. }
  rewrite Hload. reflexivity.
Defined.

(** X15.  A load by type of a document that is an object and fails a check
    of the header returns the message of the first check that fails, in
    the order Type, ClassName, ClassData, and hands back the object as it
    was given: the registry is not asked and the mapper is not run.  The
    check of Type is on its text up to the first NUL. *)
Theorem load_by_type_stops_at_the_first_failing_header_check
  {Obj : Type} `{!Engine Obj} {S : Type} `{!GenericStream S}
  (objectToLoad : Obj) (classId : AZ.Uuid) (stream stream' : S)
  (settings : option (JsonDeserializerSettings.t Obj))
  (loadSettings : PreparedSettings) (members : list (string * Value))
  (message : string) :
  PrepareDeserializerSettings settings = AZ.Success loadSettings ->
  LoadJson stream = (AZ.Success (JObject members), stream') ->
  first_failure spec_header_checks members = Some message ->
  LoadObjectFromStreamByType objectToLoad classId stream settings
  = Done (AZ.Failure message, objectToLoad, stream').
Proof.
  intros Hprepare Hparse Hfails.
  apply (LoadObjectFromStreamByType_invalid_header objectToLoad classId stream
           stream' settings loadSettings (JObject members));
    [assumption|assumption|].
  rewrite ValidateJsonClassHeader_object. unfold spec_validateHeader.
  now rewrite Hfails.
Qed.

Lemma load_by_type_stops_at_the_first_failing_header_check_witness :
  forget_stream
    (LoadObjectFromStreamByType Fixture.blank Fixture.UnknownId
       (Fixture.file_of Fixture.headless) None)
  = Done (AZ.Failure "Not a valid JsonSerialization file", Fixture.blank).
Proof.
  assert (exists stream',
             LoadObjectFromStreamByType Fixture.blank Fixture.UnknownId
               (Fixture.file_of Fixture.headless) None
             = Done (AZ.Failure "Not a valid JsonSerialization file",
                     Fixture.blank, stream')) as [stream' Hload].
  { eexists.
    eapply load_by_type_stops_at_the_first_failing_header_check.
    - reflexivity.
    - vm_compute. reflexivity.
    - reflexivity. }
  rewrite Hload. reflexivity.
Defined.

(** ** What a load touches *)

Lemma LoadJson_stream {Obj : Type} `{!Engine Obj} {S : Type}
  `{!GenericStream S} (stream : S) :
  snd (LoadJson stream) = stream
  \/ snd (LoadJson stream) = snd (Read (GetLength stream) stream).
Proof.
  unfold LoadJson. destruct (MaxFileSize <? GetLength stream); [now left|].
  right. destruct (Read (GetLength stream) stream) as [data stream'].
  now destruct (negb _).
Qed.

(** X19.  A load by type that returns has read the stream at most once,
    for as many bytes as the stream reports: the stream it hands back is
    the one given or the one that read leaves.  The object it hands back
    is the one given unless the mapper ran, and then it is the object the
    mapper left, whether the load succeeds or fails. *)
Theorem load_by_type_reads_once_and_changes_the_object_through_the_mapper
  {Obj : Type} `{!Engine Obj} {S : Type} `{!GenericStream S}
  (objectToLoad : Obj) (classId : AZ.Uuid) (stream : S)
  (settings : option (JsonDeserializerSettings.t Obj))
  (outcome : AZ.Outcome unit string) (loaded : Obj) (stream' : S) :
  LoadObjectFromStreamByType objectToLoad classId stream settings
  = Done (outcome, loaded, stream') ->
  (stream' = stream \/ stream' = snd (Read (GetLength stream) stream))
  /\ (loaded = objectToLoad
      \/ exists (loadSettings : PreparedSettings) (payload : Value),
           PrepareDeserializerSettings settings = AZ.Success loadSettings
           /\ loaded
              = snd (fst (run (prepared_reporting loadSettings)
                            (JsonSerialization_Load objectToLoad classId
                               payload
                               (prepared_serializeContext loadSettings))
                            ""))).
Proof.
  unfold LoadObjectFromStreamByType.
  destruct (PrepareDeserializerSettings settings) as [loadSettings|error];
    [|intros H; injection H as <- <- <-; split; now left].
  pose proof (LoadJson_stream stream) as Hstream.
  destruct (LoadJson stream) as [[jsonDocument|error] read].
  2: { intros H. injection H as <- <- <-. split; [exact Hstream|now left]. }
  cbn [snd] in Hstream.
  destruct (ValidateJsonClassHeader jsonDocument) as [[[]|error]|fault];
    cbn [mbind Exec_bind]; [| |discriminate].
  2: { intros H. injection H as <- <- <-. split; [exact Hstream|now left]. }
  destruct (FindMember jsonDocument ClassNameTag) as [nameItr|fault];
    cbn [mbind Exec_bind]; [|discriminate].
  destruct (value nameItr) as [nameValue|fault];
    cbn [mbind Exec_bind]; [|discriminate].
  destruct (GetString nameValue) as [className|fault];
    cbn [mbind Exec_bind]; [|discriminate].
  destruct (FindClassData _ classId) as [classData|];
    cbn [mbind Exec_bind]; [|discriminate].
  destruct (negb _).
  { intros H. injection H as <- <- <-. split; [exact Hstream|now left]. }
  destruct (FindMember jsonDocument ClassDataTag) as [dataItr|fault];
    cbn [mbind Exec_bind]; [|discriminate].
  destruct (value dataItr) as [payload|fault];
    cbn [mbind Exec_bind]; [|discriminate].
  destruct (run _ _ _) as [[result mapped] errors] eqn:Hrun.
  intros H.
  assert (loaded = mapped /\ stream' = read) as [-> ->]
      by (destruct (_ || _)%bool; injection H as <- <- <-; now split).
  split; [exact Hstream|]. right. exists loadSettings, payload.
  split; [reflexivity|]. now rewrite Hrun.
Qed.

Lemma load_by_type_reads_once_and_changes_the_object_through_the_mapper_witness :
  LoadObjectFromStreamByType Fixture.blank Fixture.LabelId
    (Fixture.file_of Fixture.hello_with_extra) None
  = Done (AZ.Failure ("Skipping unknown field 'colour' " ++ String "010" ""),
          {| Fixture.text := "hello"; Fixture.size := 0 |},
          snd (Read 104 (Fixture.file_of Fixture.hello_with_extra)))
  /\ (snd (Read 104 (Fixture.file_of Fixture.hello_with_extra))
      = Fixture.file_of Fixture.hello_with_extra
      \/ snd (Read 104 (Fixture.file_of Fixture.hello_with_extra))
         = snd (Read (GetLength (Fixture.file_of Fixture.hello_with_extra))
                  (Fixture.file_of Fixture.hello_with_extra))).
Proof.
  assert (LoadObjectFromStreamByType Fixture.blank Fixture.LabelId
            (Fixture.file_of Fixture.hello_with_extra) None
          = Done (AZ.Failure ("Skipping unknown field 'colour' "
                              ++ String "010" ""),
                  {| Fixture.text := "hello"; Fixture.size := 0 |},
                  snd (Read 104 (Fixture.file_of Fixture.hello_with_extra))))
    as Hload by (vm_compute; reflexivity).
  split; [exact Hload|].
  exact (proj1 (load_by_type_reads_once_and_changes_the_object_through_the_mapper
                  _ _ _ _ _ _ _ Hload)).
Defined.

(** X20.  For a stream that reports no more than 1 MiB, 1 MiB itself
    included, and gives all the bytes it reports, [LoadJson] is what
    [ParseJson] makes of those bytes followed by one terminator: the
    parser's document, or the parser's error. *)
Theorem LoadJson_parses_the_bytes_and_a_terminator
  {Obj : Type} `{!Engine Obj} {S : Type} `{!GenericStream S}
  (stream stream' : S) (data : string) :
  GetLength stream <= 1048576 ->
  Read (GetLength stream) stream = (data, stream') ->
  strlen data = GetLength stream ->
  LoadJson stream = (ParseJson (data ++ String zero ""), stream').
Proof.
  intros Hmax Hread Hall.
  apply LoadJson_reads.
  - now symmetry.
  - rewrite Hall. exact Hmax.
  - now rewrite Hall.
Qed.

Lemma LoadJson_parses_the_bytes_and_a_terminator_witness :
  LoadJson (Fixture.file_of Fixture.saved_hello)
  = (AZ.Success Fixture.saved_hello,
     snd (Read 98 (Fixture.file_of Fixture.saved_hello))).
Proof.
  rewrite (LoadJson_parses_the_bytes_and_a_terminator
             (Fixture.file_of Fixture.saved_hello)
             (snd (Read 98 (Fixture.file_of Fixture.saved_hello)))
             (Fixture.render Fixture.saved_hello)).
  - vm_compute. reflexivity.
  - vm_compute. discriminate.
  - reflexivity.
  - reflexivity.
Defined.
